(** * Shallow embedding of the SpaceEngineersLift performance model
    (models.py, ai_assistant.py, utils.py).

    Python ints are [Z]; Python floats are modelled as exact rationals [Q];
    Python exceptions are the [Err] arm of a small result monad. *)

From Stdlib Require Import ZArith QArith Qabs Qminmax String Ascii List Lia Lqa.
Import ListNotations.
Open Scope Z_scope.

(** ** Python exceptions and the result monad *)

Inductive PyExc : Type :=
| ZeroDivisionError
| KeyError (k : string)
| TypeError (msg : string)
| ValueError (msg : string).

Inductive result (A : Type) : Type :=
| Ok (a : A)
| Err (e : PyExc).
Arguments Ok {A} a.
Arguments Err {A} e.

Definition bind {A B} (m : result A) (k : A -> result B) : result B :=
  match m with
  | Ok a => k a
  | Err e => Err e
  end.

Notation "'let*' x ':=' m 'in' k" := (bind m (fun x => k))
  (at level 200, x name, m at level 100, k at level 200).

(** Python true division [x / y]: raises [ZeroDivisionError] when [y == 0]. *)
Definition py_div (x y : Q) : result Q :=
  if Qeq_bool y 0 then Err ZeroDivisionError else Ok (x / y)%Q.

(** Python [x < y] on numbers. *)
Definition Qltb (x y : Q) : bool := negb (Qle_bool y x).

(** Python's built-in [min(a, b)] returns [b] only if [b < a]; [max(a, b)]
    returns [b] only if [b > a]. *)
Definition py_min (a b : Q) : Q := if Qltb b a then b else a.
Definition py_max (a b : Q) : Q := if Qltb a b then b else a.

(** ** models.py : the data model *)

Inductive ThrusterType := atmospheric | ion | hydrogen.

(** [THRUSTER_SPECS] (Newtons): a fixed table keyed by propulsion type. *)
Record SizeSpecs := { spec_small : Z; spec_large : Z }.

Definition THRUSTER_SPECS (t : ThrusterType) : SizeSpecs :=
  match t with
  | atmospheric => {| spec_small := 82000; spec_large := 408000 |}
  | ion => {| spec_small := 14400; spec_large := 172800 |}
  | hydrogen => {| spec_small := 98400; spec_large := 478800 |}
  end.

Record ThrusterCount := { small : Z; large : Z }.

(** [ThrusterCount()] *)
Definition ThrusterCount_default : ThrusterCount := {| small := 0; large := 0 |}.

(** [ThrusterCount.calculate_thrust] *)
Definition calculate_thrust (tc : ThrusterCount) (thrust_type : ThrusterType) : Z :=
  let specs := THRUSTER_SPECS thrust_type in
  small tc * spec_small specs + large tc * spec_large specs.

Record GridSpecifications := {
  mass : Q;
  gravity : Q;
  atmospheric_thrusters : ThrusterCount;
  ion_thrusters : ThrusterCount;
  hydrogen_thrusters : ThrusterCount
}.

(** The dict returned by [calculate_thrust_by_type], keys in insertion order. *)
Record ThrustByType := { t_atmospheric : Z; t_ion : Z; t_hydrogen : Z }.

Definition calculate_thrust_by_type (s : GridSpecifications) : ThrustByType :=
  {| t_atmospheric := calculate_thrust (atmospheric_thrusters s) atmospheric;
     t_ion := calculate_thrust (ion_thrusters s) ion;
     t_hydrogen := calculate_thrust (hydrogen_thrusters s) hydrogen |}.

(** [thrusts.values()] in dict order. *)
Definition thrust_values (t : ThrustByType) : list Z :=
  [t_atmospheric t; t_ion t; t_hydrogen t].

(** Python's [sum(iterable)] starts from 0 and adds left to right. *)
Definition py_sum (l : list Z) : Z := fold_left Z.add l 0.

Definition calculate_total_thrust (s : GridSpecifications) : Z :=
  py_sum (thrust_values (calculate_thrust_by_type s)).

(** [calculate_lift_capacity]: [(total_thrust - mass * gravity) / gravity]. *)
Definition calculate_lift_capacity (s : GridSpecifications) : result Q :=
  let total_thrust := calculate_total_thrust s in
  py_div (inject_Z total_thrust - mass s * gravity s)%Q (gravity s).

(** [GridSpecifications(mass, gravity=9.81, atmospheric_thrusters=None, ...)]
    followed by [__post_init__].  An omitted thruster argument and an explicit
    [None] are both [None]; an omitted [gravity] is [None] here and takes the
    default [9.81]. *)
Definition GRAVITY_DEFAULT : Q := 981 # 100.

(** Truthiness of a Python value of type [Optional[ThrusterCount]]: [None] is
    falsy; a dataclass instance defines neither [__bool__] nor [__len__], so
    it is always truthy. *)
Definition thruster_truthy (x : option ThrusterCount) : bool :=
  match x with
  | None => false
  | Some _ => true
  end.

(** Python [x or ThrusterCount()]. *)
Definition or_default (x : option ThrusterCount) : ThrusterCount :=
  if thruster_truthy x then
    match x with Some t => t | None => ThrusterCount_default end
  else ThrusterCount_default.

Definition GridSpecifications_init (mass_arg : Q) (gravity_arg : option Q)
    (atm ion_arg hyd : option ThrusterCount) : GridSpecifications :=
  {| mass := mass_arg;
     gravity := match gravity_arg with Some g => g | None => GRAVITY_DEFAULT end;
     atmospheric_thrusters := or_default atm;
     ion_thrusters := or_default ion_arg;
     hydrogen_thrusters := or_default hyd |}.

(** ** ai_assistant.py : rule-based scoring *)

Open Scope string_scope.

(** Python [sum] over floats. *)
Definition py_sum_Q (l : list Q) : Q := fold_left Qplus l 0%Q.

(** [ThrusterAIAssistant._calculate_efficiency_score] *)
Definition calculate_efficiency_score (specs : GridSpecifications) : result Q :=
  let total_thrust := calculate_total_thrust specs in
  if (total_thrust =? 0)%Z || Qeq_bool (mass specs) 0 then Ok 0%Q else
  let* twr := py_div (inject_Z total_thrust) (mass specs * gravity specs)%Q in
  let base_score := py_min 100 (py_max 0 (twr * 20)) in
  let thrusts := calculate_thrust_by_type specs in
  let ideal_thrust := (inject_Z total_thrust / 3)%Q in
  let* distribution_penalty :=
    if (0 <? total_thrust)%Z then
      let* q := py_div
                  (py_sum_Q (map (fun t => Qabs (inject_Z t - ideal_thrust))
                                 (thrust_values thrusts)))
                  (inject_Z total_thrust) in
      Ok (q * 20)%Q
    else Ok 100%Q in
  Ok (py_max 0 (py_min 100 (base_score - distribution_penalty))).

(** The [thrust_distribution] dict (percentages), keys in insertion order. *)
Record Distribution := { d_atmospheric : Q; d_ion : Q; d_hydrogen : Q }.

(** [ThrusterAIAssistant._analyze_thrust_balance] *)
Definition analyze_thrust_balance (distribution : Distribution) : string :=
  if forallb (fun v => Qeq_bool v 0)
       [d_atmospheric distribution; d_ion distribution; d_hydrogen distribution]
  then "No thrusters configured"
  else if Qltb 60 (d_atmospheric distribution)
  then "Heavy atmospheric focus - consider diversifying for space operations"
  else if Qltb 60 (d_ion distribution)
  then "Heavy ion focus - may struggle in atmosphere"
  else if Qltb 60 (d_hydrogen distribution)
  then "Heavy hydrogen focus - check fuel efficiency"
  else "Balanced thrust distribution".

Definition MSG_ADD_THRUSTERS := "Add thrusters to begin analysis".
Definition MSG_TWR_ZERO := "Add mass and thrusters to calculate thrust-to-weight ratio".
Definition MSG_TWR_LOW := "Add more thrusters to improve lift capacity".
Definition MSG_TWR_HIGH := "Consider reducing thrust for better efficiency".
Definition MSG_ATMO := "Increase atmospheric thrusters for better planet performance".
Definition MSG_SPACE := "Increase ion/hydrogen thrusters for space operations".

(** [twr = total_thrust / (specs.mass * specs.gravity) if specs.mass > 0 else 0],
    as written in [analyze_grid] and [_generate_suggested_changes]. *)
Definition guarded_twr (specs : GridSpecifications) (total_thrust : Z) : result Q :=
  if Qltb 0 (mass specs)
  then py_div (inject_Z total_thrust) (mass specs * gravity specs)%Q
  else Ok 0%Q.

(** [ThrusterAIAssistant._generate_suggested_changes] *)
Definition generate_suggested_changes (specs : GridSpecifications)
    : result (list string) :=
  let total_thrust := calculate_total_thrust specs in
  if (total_thrust =? 0)%Z then Ok [MSG_ADD_THRUSTERS] else
  let* twr := guarded_twr specs total_thrust in
  let suggestions :=
    if Qeq_bool twr 0 then [MSG_TWR_ZERO]
    else if Qltb twr (3 # 2) then [MSG_TWR_LOW]
    else if Qltb 4 twr then [MSG_TWR_HIGH]
    else [] in
  let thrusts := calculate_thrust_by_type specs in
  let suggestions :=
    (suggestions ++
     (if Qltb 0 (mass specs)
         && Qltb (inject_Z (t_atmospheric thrusts)) (mass specs * gravity specs)
      then [MSG_ATMO] else []))%list in
  let suggestions :=
    (suggestions ++
     (if Qltb 0 (mass specs)
         && Qltb (inject_Z (t_ion thrusts + t_hydrogen thrusts))
                 (mass specs * gravity specs)
      then [MSG_SPACE] else []))%list in
  Ok suggestions.

(** ** ai_assistant.py : the advisory-service boundary *)

Definition NL : string := String (ascii_of_nat 10) EmptyString.

(** Python [s.split("\n\n")]: left-to-right, non-overlapping separators;
    [cur] is the segment read so far. *)
Fixpoint split_blank_aux (s cur : string) : list string :=
  match s with
  | EmptyString => [cur]
  | String c s' =>
      if Ascii.eqb c (ascii_of_nat 10) then
        match s' with
        | String c2 s'' =>
            if Ascii.eqb c2 (ascii_of_nat 10) then cur :: split_blank_aux s'' ""
            else split_blank_aux s' (cur ++ String c "")
        | EmptyString => split_blank_aux s' (cur ++ String c "")
        end
      else split_blank_aux s' (cur ++ String c "")
  end.

Definition split_blank (s : string) : list string := split_blank_aux s "".

(** The dict returned by [analyze_grid]. *)
Record Analysis := { efficiency : string; optimization : string; use_cases : string }.

(** Outcome of the [try] body up to [response.choices[0].message.content]:
    the reply text, or the exception raised (API, network, auth, quota, or a
    malformed response) with its [str(e)]. *)
Inductive ChatOutcome :=
| ChatReply (content : string)
| ChatFailure (err : string).

Definition system_prompt : string :=
  NL ++ String.concat NL
    ["You are an AI assistant specializing in Space Engineers thruster configurations.";
     "Analyze grid specifications and provide optimization suggestions.";
     "Focus on:";
     "- Thruster type distribution";
     "- Mass-to-thrust ratio";
     "- Power efficiency";
     "- Atmospheric vs Space performance";
     "Provide specific, actionable recommendations."] ++ NL.

Section AnalyzeGrid.
(** [f"{x:,.2f}"] and [f"{x:.2f}"]. *)
Variable fmt_thousands : Q -> string.
Variable fmt_fixed2 : Q -> string.
(** [openai.ChatCompletion.create(...)] with the system and user messages. *)
Variable chat : string -> string -> ChatOutcome.

Definition build_prompt (specs : GridSpecifications) (total_thrust : Z) (twr : Q)
    (thrusts : ThrustByType) (lift_capacity : Q) : string :=
  NL ++ String.concat NL
    ["Current Grid Configuration:";
     "- Mass: " ++ fmt_thousands (mass specs) ++ " kg";
     "- Total Thrust: " ++ fmt_thousands (inject_Z total_thrust) ++ " N";
     "- Thrust-to-Weight Ratio: " ++ fmt_fixed2 twr;
     "- Atmospheric Thrust: " ++ fmt_thousands (inject_Z (t_atmospheric thrusts)) ++ " N";
     "- Ion Thrust: " ++ fmt_thousands (inject_Z (t_ion thrusts)) ++ " N";
     "- Hydrogen Thrust: " ++ fmt_thousands (inject_Z (t_hydrogen thrusts)) ++ " N";
     "- Lift Capacity: " ++ fmt_thousands lift_capacity ++ " kg";
     "";
     "Please analyze this configuration and provide:";
     "1. Efficiency Assessment: Evaluate the current setup's efficiency";
     "2. Optimization Suggestions: Recommend improvements";
     "3. Use Case Analysis: Suggest ideal scenarios for this configuration"] ++ NL.

(** [ThrusterAIAssistant.analyze_grid]: the metrics are computed before the
    [try]; only the external call and the parsing are inside it. *)
Definition analyze_grid (specs : GridSpecifications) : result Analysis :=
  let thrusts := calculate_thrust_by_type specs in
  let total_thrust := calculate_total_thrust specs in
  let* lift_capacity := calculate_lift_capacity specs in
  let* twr := guarded_twr specs total_thrust in
  let prompt := build_prompt specs total_thrust twr thrusts lift_capacity in
  Ok (match chat system_prompt prompt with
      | ChatReply analysis =>
          let sections := split_blank analysis in
          {| efficiency :=
               if (0 <? length sections)%nat then nth 0 sections ""
               else "Analysis unavailable";
             optimization :=
               if (1 <? length sections)%nat then nth 1 sections ""
               else "No optimization suggestions";
             use_cases :=
               if (2 <? length sections)%nat then nth 2 sections ""
               else "No use case analysis" |}
      | ChatFailure e =>
          {| efficiency := "Error analyzing efficiency: " ++ e;
             optimization := "Analysis unavailable";
             use_cases := "Analysis unavailable" |}
      end).
End AnalyzeGrid.

(** ** utils.py : the numeric rows of [export_grid_to_csv]
    (the "Performance Analysis" block, values before [format_number]). *)
Definition export_grid_to_csv_performance (specs : GridSpecifications)
    : result (list (string * Q)) :=
  let thrusts := calculate_thrust_by_type specs in
  let total_thrust := calculate_total_thrust specs in
  let* lift_capacity := calculate_lift_capacity specs in
  let* twr := py_div (inject_Z total_thrust) (mass specs * gravity specs)%Q in
  Ok [("Total Thrust (N)", inject_Z total_thrust);
      ("Atmospheric Thrust (N)", inject_Z (t_atmospheric thrusts));
      ("Ion Thrust (N)", inject_Z (t_ion thrusts));
      ("Hydrogen Thrust (N)", inject_Z (t_hydrogen thrusts));
      ("Required Hover Thrust (N)", (mass specs * gravity specs)%Q);
      ("Lift Capacity (kg)", lift_capacity);
      ("Thrust-to-Weight Ratio", twr)].

(** ** models.py : dict and JSON forms *)

Set Warnings "-register-all".

(** The Python values that appear in the dict form of a configuration. *)
Inductive pyval :=
| PyInt (z : Z)
| PyFloat (q : Q)
| PyStr (s : string)
| PyDict (kvs : list (string * pyval)).

Fixpoint assoc (k : string) (kvs : list (string * pyval)) : option pyval :=
  match kvs with
  | [] => None
  | (k', v) :: rest => if String.eqb k k' then Some v else assoc k rest
  end.

(** [d[k]] *)
Definition getitem (d : pyval) (k : string) : result pyval :=
  match d with
  | PyDict kvs =>
      match assoc k kvs with
      | Some v => Ok v
      | None => Err (KeyError k)
      end
  | _ => Err (TypeError "object is not subscriptable")
  end.

(** The typed fields of the records: an [int] field receives an [int]; a
    [float] field receives a [float] or an [int]; a [str] field a [str]. *)
Definition as_int (v : pyval) : result Z :=
  match v with
  | PyInt z => Ok z
  | _ => Err (TypeError "expected int")
  end.

Definition as_float (v : pyval) : result Q :=
  match v with
  | PyFloat q => Ok q
  | PyInt z => Ok (inject_Z z)
  | _ => Err (TypeError "expected float")
  end.

Definition as_str (v : pyval) : result string :=
  match v with
  | PyStr s => Ok s
  | _ => Err (TypeError "expected str")
  end.

(** A keyword argument with a default value. *)
Definition kwarg_int (kvs : list (string * pyval)) (k : string) (default : Z) : result Z :=
  match assoc k kvs with
  | Some v => as_int v
  | None => Ok default
  end.

(** [ThrusterCount.to_dict] *)
Definition ThrusterCount_to_dict (tc : ThrusterCount) : pyval :=
  PyDict [("small", PyInt (small tc)); ("large", PyInt (large tc))].

(** [ThrusterCount.from_dict]: [cls] applied to [**data]. *)
Definition ThrusterCount_from_dict (data : pyval) : result ThrusterCount :=
  match data with
  | PyDict kvs =>
      if forallb (fun kv => String.eqb (fst kv) "small" || String.eqb (fst kv) "large") kvs
      then
        let* s := kwarg_int kvs "small" 0 in
        let* l := kwarg_int kvs "large" 0 in
        Ok {| small := s; large := l |}
      else Err (TypeError "unexpected keyword argument")
  | _ => Err (TypeError "argument after ** must be a mapping")
  end.

(** [GridSpecifications.to_dict] *)
Definition GridSpecifications_to_dict (s : GridSpecifications) : pyval :=
  PyDict [("mass", PyFloat (mass s));
          ("gravity", PyFloat (gravity s));
          ("atmospheric_thrusters", ThrusterCount_to_dict (atmospheric_thrusters s));
          ("ion_thrusters", ThrusterCount_to_dict (ion_thrusters s));
          ("hydrogen_thrusters", ThrusterCount_to_dict (hydrogen_thrusters s))].

Definition is_grid_field (k : string) : bool :=
  String.eqb k "mass" || String.eqb k "gravity" || String.eqb k "atmospheric_thrusters"
  || String.eqb k "ion_thrusters" || String.eqb k "hydrogen_thrusters".

(** [GridSpecifications.from_dict]: the three thruster entries of the copy are
    replaced by parsed [ThrusterCount]s, then [cls] applied to [**specs_data] runs the
    constructor and [__post_init__]. *)
Definition GridSpecifications_from_dict (data : pyval) : result GridSpecifications :=
  match data with
  | PyDict kvs =>
      let* atm := bind (getitem data "atmospheric_thrusters") ThrusterCount_from_dict in
      let* ion_tc := bind (getitem data "ion_thrusters") ThrusterCount_from_dict in
      let* hyd := bind (getitem data "hydrogen_thrusters") ThrusterCount_from_dict in
      if forallb (fun kv => is_grid_field (fst kv)) kvs then
        let* m := match assoc "mass" kvs with
                  | Some v => as_float v
                  | None => Err (TypeError "missing required argument: 'mass'")
                  end in
        let* g := match assoc "gravity" kvs with
                  | Some v => bind (as_float v) (fun g => Ok (Some g))
                  | None => Ok None
                  end in
        Ok (GridSpecifications_init m g (Some atm) (Some ion_tc) (Some hyd))
      else Err (TypeError "unexpected keyword argument")
  | _ => Err (TypeError "'dict' object expected")
  end.

Record Preset := { name : string; specifications : GridSpecifications }.

Section PresetJson.
(** [json.dumps] and [json.loads] of the standard library. *)
Context {json_text : Type}.
Variable json_dumps : pyval -> json_text.
Variable json_loads : json_text -> result pyval.

(** [Preset.save] *)
Definition Preset_save (p : Preset) : json_text :=
  json_dumps (PyDict [("name", PyStr (name p));
                      ("specifications", GridSpecifications_to_dict (specifications p))]).

(** [Preset.load] *)
Definition Preset_load (data : json_text) : result Preset :=
  let* parsed := json_loads data in
  let* n := bind (getitem parsed "name") as_str in
  let* sp := bind (getitem parsed "specifications") GridSpecifications_from_dict in
  Ok {| name := n; specifications := sp |}.
End PresetJson.

(** * Properties *)

(** The spec scenario: mass 1000 kg, gravity 9.81, two small atmospheric
    thrusters. *)
Definition scenario_grid : GridSpecifications :=
  GridSpecifications_init 1000 None (Some {| small := 2; large := 0 |}) None None.

Example scenario_grid_thrust :
  calculate_thrust_by_type scenario_grid
    = {| t_atmospheric := 164000; t_ion := 0; t_hydrogen := 0 |}
  /\ calculate_total_thrust scenario_grid = 164000%Z.
Proof. split; reflexivity. Qed.

Example scenario_grid_lift :
  calculate_lift_capacity scenario_grid
    = Ok ((inject_Z 164000 - 1000 * (981 # 100)) / (981 # 100))%Q.
Proof. reflexivity. Qed.

(** ** C1 *)

(** C1: each per-type thrust is [small * table.small + large * table.large]
    for that type's table row, and the total thrust is the sum of the three
    per-type values (in any order of addition). *)
Theorem thrust_by_type_and_total (s : GridSpecifications) :
  calculate_thrust_by_type s =
    {| t_atmospheric :=
         small (atmospheric_thrusters s) * spec_small (THRUSTER_SPECS atmospheric)
         + large (atmospheric_thrusters s) * spec_large (THRUSTER_SPECS atmospheric);
       t_ion :=
         small (ion_thrusters s) * spec_small (THRUSTER_SPECS ion)
         + large (ion_thrusters s) * spec_large (THRUSTER_SPECS ion);
       t_hydrogen :=
         small (hydrogen_thrusters s) * spec_small (THRUSTER_SPECS hydrogen)
         + large (hydrogen_thrusters s) * spec_large (THRUSTER_SPECS hydrogen) |}
  /\ calculate_total_thrust s
       = t_atmospheric (calculate_thrust_by_type s)
         + t_ion (calculate_thrust_by_type s)
         + t_hydrogen (calculate_thrust_by_type s)
  /\ calculate_total_thrust s
       = t_hydrogen (calculate_thrust_by_type s)
         + t_ion (calculate_thrust_by_type s)
         + t_atmospheric (calculate_thrust_by_type s).
Proof.
  split; [reflexivity|].
  unfold calculate_total_thrust, py_sum, thrust_values; simpl.
  split; lia.
Qed.

(** ** C2 *)

Lemma py_div_nonzero (x y : Q) : ~ (y == 0)%Q -> py_div x y = Ok (x / y)%Q.
Proof.
  intros Hy. unfold py_div.
  destruct (Qeq_bool y 0) eqn:E; [|reflexivity].
  apply Qeq_bool_iff in E. contradiction.
Qed.

Lemma py_div_zero (x y : Q) : (y == 0)%Q -> py_div x y = Err ZeroDivisionError.
Proof.
  intros Hy. unfold py_div.
  destruct (Qeq_bool y 0) eqn:E; [reflexivity|].
  apply Qeq_bool_neq in E. contradiction.
Qed.

(** C2: with gravity > 0 the lift capacity is
    [(totalThrust - mass*gravity) / gravity]; with gravity = 0 it raises
    [ZeroDivisionError] to the caller instead of returning a value. *)
Theorem lift_capacity_spec (s : GridSpecifications) :
  ((0 < gravity s)%Q ->
   calculate_lift_capacity s
     = Ok ((inject_Z (calculate_total_thrust s) - mass s * gravity s) / gravity s)%Q)
  /\ ((gravity s == 0)%Q -> calculate_lift_capacity s = Err ZeroDivisionError).
Proof.
  split; intros H; unfold calculate_lift_capacity.
  - apply py_div_nonzero. intros E. rewrite E in H. apply (Qlt_irrefl 0). exact H.
  - apply py_div_zero. exact H.
Qed.

Lemma lift_capacity_spec_witness :
  (0 < gravity scenario_grid)%Q
  /\ calculate_lift_capacity scenario_grid
       = Ok ((inject_Z (calculate_total_thrust scenario_grid)
              - mass scenario_grid * gravity scenario_grid) / gravity scenario_grid)%Q
  /\ (gravity (GridSpecifications_init 1000 (Some 0%Q) None None None) == 0)%Q
  /\ calculate_lift_capacity (GridSpecifications_init 1000 (Some 0%Q) None None None)
       = Err ZeroDivisionError.
Proof.
  split; [reflexivity|].
  split; [apply (proj1 (lift_capacity_spec scenario_grid)); reflexivity|].
  split; [reflexivity|].
  apply (proj2 (lift_capacity_spec (GridSpecifications_init 1000 (Some 0%Q) None None None))).
  reflexivity.
Defined.

(** ** C3 *)

Lemma Qltb_true (a b : Q) : Qltb a b = true <-> (a < b)%Q.
Proof.
  unfold Qltb. rewrite negb_true_iff. split; intro H.
  - apply Qnot_le_lt. intro H'. apply Qle_bool_iff in H'. congruence.
  - destruct (Qle_bool b a) eqn:E; [|reflexivity].
    apply Qle_bool_iff in E. exfalso. exact (Qlt_not_le _ _ H E).
Qed.

Lemma Qltb_false (a b : Q) : Qltb a b = false <-> (b <= a)%Q.
Proof.
  unfold Qltb. rewrite negb_false_iff. apply Qle_bool_iff.
Qed.

(** [max(0, min(100, x))] always lies in [[0, 100]]. *)
Lemma py_clamp_range (x : Q) :
  (0 <= py_max 0 (py_min 100 x) <= 100)%Q.
Proof.
  unfold py_max, py_min.
  destruct (Qltb x 100) eqn:E1.
  - apply Qltb_true in E1.
    destruct (Qltb 0 x) eqn:E2.
    + apply Qltb_true in E2. split; apply Qlt_le_weak; assumption.
    + split; [apply Qle_refl | discriminate].
  - destruct (Qltb 0 100) eqn:E2; [|discriminate].
    split; [discriminate | apply Qle_refl].
Qed.

Lemma Qmult_nonzero (a b : Q) : ~ (a == 0)%Q -> ~ (b == 0)%Q -> ~ (a * b == 0)%Q.
Proof.
  intros Ha Hb H. apply Qmult_integral in H. destruct H; contradiction.
Qed.

Lemma inject_Z_nonzero (z : Z) : z <> 0%Z -> ~ (inject_Z z == 0)%Q.
Proof.
  intros Hz H. apply Hz. apply inject_Z_injective. exact H.
Qed.

(** A grid with mass, thrust and zero gravity. *)
Definition zero_gravity_grid : GridSpecifications :=
  GridSpecifications_init 1 (Some 0%Q) (Some {| small := 1; large := 0 |}) None None.

(** C3 (counterexample): mass 1, gravity 0 and one small atmospheric thruster
    are non-negative inputs, yet the efficiency score raises
    [ZeroDivisionError] instead of returning a value in [[0, 100]]. *)
Lemma efficiency_score_zero_gravity_raises :
  calculate_efficiency_score zero_gravity_grid = Err ZeroDivisionError.
Proof. reflexivity. Qed.

(** C3 (amended): the score is exactly 0 whenever total thrust is 0 or mass
    is 0 (whatever the gravity); for non-zero gravity it is always a value
    in [[0, 100]]; with gravity 0, mass non-zero and thrust non-zero it raises
    [ZeroDivisionError]. *)
Theorem efficiency_score_range (s : GridSpecifications) :
  ((calculate_total_thrust s = 0%Z \/ (mass s == 0)%Q) ->
     calculate_efficiency_score s = Ok 0%Q)
  /\ (~ (gravity s == 0)%Q ->
      exists v, calculate_efficiency_score s = Ok v /\ (0 <= v <= 100)%Q)
  /\ (calculate_total_thrust s <> 0%Z -> ~ (mass s == 0)%Q -> (gravity s == 0)%Q ->
      calculate_efficiency_score s = Err ZeroDivisionError).
Proof.
  unfold calculate_efficiency_score.
  split; [|split].
  - intros [H|H].
    + rewrite H. reflexivity.
    + assert (E : Qeq_bool (mass s) 0 = true) by (apply Qeq_bool_iff; exact H).
      rewrite E, orb_true_r. reflexivity.
  - intros Hg.
    destruct ((calculate_total_thrust s =? 0)%Z || Qeq_bool (mass s) 0) eqn:E.
    + exists 0%Q. split; [reflexivity|]. split; discriminate.
    + apply orb_false_iff in E. destruct E as [_ Em].
      apply Qeq_bool_neq in Em.
      rewrite (py_div_nonzero _ _ (Qmult_nonzero _ _ Em Hg)). simpl.
      destruct (0 <? calculate_total_thrust s)%Z eqn:Hp.
      * rewrite py_div_nonzero.
        -- simpl. eexists. split; [reflexivity|]. apply py_clamp_range.
        -- apply inject_Z_nonzero. apply Z.ltb_lt in Hp. lia.
      * simpl. eexists. split; [reflexivity|]. apply py_clamp_range.
  - intros Ht Hm Hg.
    assert (E : (calculate_total_thrust s =? 0)%Z = false) by (apply Z.eqb_neq; exact Ht).
    assert (E2 : Qeq_bool (mass s) 0 = false).
    { destruct (Qeq_bool (mass s) 0) eqn:E3; [|reflexivity].
      apply Qeq_bool_iff in E3. contradiction. }
    rewrite E, E2. simpl.
    rewrite py_div_zero; [reflexivity|].
    rewrite Hg. apply Qmult_0_r.
Qed.

Definition empty_grid : GridSpecifications := GridSpecifications_init 0 None None None None.

Lemma efficiency_score_range_witness :
  calculate_efficiency_score empty_grid = Ok 0%Q
  /\ (exists v, calculate_efficiency_score scenario_grid = Ok v /\ (0 <= v <= 100)%Q)
  /\ calculate_efficiency_score zero_gravity_grid = Err ZeroDivisionError.
Proof.
  split; [apply (proj1 (efficiency_score_range empty_grid)); right; reflexivity|].
  split; [apply (proj1 (proj2 (efficiency_score_range scenario_grid))); discriminate|].
  apply (proj2 (proj2 (efficiency_score_range zero_gravity_grid)));
    [discriminate | discriminate | reflexivity].
Defined.

(** ** C4 *)

(** The boundary contract of the advisory call, read from the spec: a failure
    fills the fields with failure text, a reply is split on blank lines and
    its first three segments fill the fields, with a placeholder for each
    missing one. *)
Definition advisory_result (o : ChatOutcome) : Analysis :=
  match o with
  | ChatFailure e =>
      {| efficiency := "Error analyzing efficiency: " ++ e;
         optimization := "Analysis unavailable";
         use_cases := "Analysis unavailable" |}
  | ChatReply t =>
      let segs := split_blank t in
      {| efficiency := nth 0 segs "Analysis unavailable";
         optimization := nth 1 segs "No optimization suggestions";
         use_cases := nth 2 segs "No use case analysis" |}
  end.

Lemma nth_guarded (i : nat) (l : list string) (d : string) :
  (if (i <? length l)%nat then nth i l "" else d) = nth i l d.
Proof.
  destruct (i <? length l)%nat eqn:E.
  - apply Nat.ltb_lt in E. apply nth_indep. exact E.
  - apply Nat.ltb_ge in E. symmetry. apply nth_overflow. exact E.
Qed.

Lemma guarded_twr_ok (s : GridSpecifications) (t : Z) :
  ~ (gravity s == 0)%Q -> exists v, guarded_twr s t = Ok v.
Proof.
  intros Hg. unfold guarded_twr.
  destruct (Qltb 0 (mass s)) eqn:E; [|eexists; reflexivity].
  apply Qltb_true in E.
  rewrite py_div_nonzero; [eexists; reflexivity|].
  apply Qmult_nonzero; [|exact Hg].
  intro H. rewrite H in E. exact (Qlt_irrefl 0 E).
Qed.

(** The failure-case counterexample output of the external call. *)
Definition failing_chat (_ _ : string) : ChatOutcome := ChatFailure "quota exceeded".
Definition no_format (_ : Q) : string := "".

(** C4 (counterexample): with gravity 0, [analyze_grid] raises
    [ZeroDivisionError] (from the lift capacity, computed before the [try]);
    and when the external call fails, only the efficiency field embeds the
    error text, the other two read "Analysis unavailable". *)
Lemma analyze_grid_counterexample :
  analyze_grid no_format no_format failing_chat zero_gravity_grid = Err ZeroDivisionError
  /\ analyze_grid no_format no_format failing_chat scenario_grid
     = Ok {| efficiency := "Error analyzing efficiency: quota exceeded";
             optimization := "Analysis unavailable";
             use_cases := "Analysis unavailable" |}
  /\ String.index 0 "quota exceeded" "Analysis unavailable" = None.
Proof. split; [|split]; reflexivity. Qed.

(** C4 (amended): for non-zero gravity [analyze_grid] never raises: it
    returns the three fields of [advisory_result] for the outcome of the
    external call on the prompt it builds (failure: efficiency embeds the
    error, optimization and use cases read "Analysis unavailable"; reply: the
    first three blank-line segments, with fixed placeholders for missing
    ones).  With gravity 0 it raises [ZeroDivisionError]. *)
Theorem analyze_grid_boundary (fmt_thousands fmt_fixed2 : Q -> string)
    (chat : string -> string -> ChatOutcome) (s : GridSpecifications) :
  (~ (gravity s == 0)%Q ->
   exists prompt,
     analyze_grid fmt_thousands fmt_fixed2 chat s
       = Ok (advisory_result (chat system_prompt prompt)))
  /\ ((gravity s == 0)%Q ->
      analyze_grid fmt_thousands fmt_fixed2 chat s = Err ZeroDivisionError).
Proof.
  unfold analyze_grid, calculate_lift_capacity. split; intros Hg.
  - rewrite (py_div_nonzero _ _ Hg). simpl.
    destruct (guarded_twr_ok s (calculate_total_thrust s) Hg) as [v Hv].
    rewrite Hv. simpl.
    match goal with |- context [chat system_prompt ?p] => exists p end.
    destruct (chat system_prompt _) as [t|e]; simpl; [|reflexivity].
    rewrite !nth_guarded. reflexivity.
  - rewrite (py_div_zero _ _ Hg). reflexivity.
Qed.

Lemma analyze_grid_boundary_witness :
  (exists prompt,
     analyze_grid no_format no_format failing_chat scenario_grid
       = Ok (advisory_result (failing_chat system_prompt prompt)))
  /\ analyze_grid no_format no_format failing_chat zero_gravity_grid = Err ZeroDivisionError.
Proof.
  split.
  - apply (proj1 (analyze_grid_boundary no_format no_format failing_chat scenario_grid)).
    discriminate.
  - apply (proj2 (analyze_grid_boundary no_format no_format failing_chat zero_gravity_grid)).
    reflexivity.
Defined.

(** ** C5 *)

(** A zero-mass grid (a reachable UI input: the mass field's minimum is 0)
    with one small atmospheric thruster. *)
Definition zero_mass_grid : GridSpecifications :=
  GridSpecifications_init 0 None (Some {| small := 1; large := 0 |}) None None.

(** C5 (code bug): on a zero-mass grid with gravity 9.81, the thrust-to-weight
    ratio is 0 where [analyze_grid] and [_generate_suggested_changes] compute
    it (they guard [mass > 0]), but [export_grid_to_csv] divides by
    [mass * gravity] unguarded and raises [ZeroDivisionError]. *)
Theorem zero_mass_twr_export_raises :
  guarded_twr zero_mass_grid (calculate_total_thrust zero_mass_grid) = Ok 0%Q
  /\ generate_suggested_changes zero_mass_grid = Ok [MSG_TWR_ZERO]
  /\ export_grid_to_csv_performance zero_mass_grid = Err ZeroDivisionError.
Proof. split; [|split]; reflexivity. Qed.

(** ** C6 *)

(** [clamp(x, lo, hi)] as the spec writes it. *)
Definition spec_clamp (x lo hi : Q) : Q := Qmin hi (Qmax lo x).

(** The efficiency score as the spec describes it for a non-degenerate grid. *)
Definition spec_efficiency_score (s : GridSpecifications) : Q :=
  let th := calculate_thrust_by_type s in
  let total := inject_Z (calculate_total_thrust s) in
  let twr := (total / (mass s * gravity s))%Q in
  let base := spec_clamp (twr * 20) 0 100 in
  let ideal_share := (total / 3)%Q in
  let penalty :=
    ((Qabs (inject_Z (t_atmospheric th) - ideal_share)
      + Qabs (inject_Z (t_ion th) - ideal_share)
      + Qabs (inject_Z (t_hydrogen th) - ideal_share)) / total * 20)%Q in
  spec_clamp (base - penalty) 0 100.

Lemma py_min_Qmin (a b : Q) : (py_min a b == Qmin a b)%Q.
Proof.
  unfold py_min. destruct (Qltb b a) eqn:E.
  - apply Qltb_true in E. symmetry. apply Q.min_r. apply Qlt_le_weak. exact E.
  - apply Qltb_false in E. symmetry. apply Q.min_l. exact E.
Qed.

Lemma py_max_Qmax (a b : Q) : (py_max a b == Qmax a b)%Q.
Proof.
  unfold py_max. destruct (Qltb a b) eqn:E.
  - apply Qltb_true in E. symmetry. apply Q.max_r. apply Qlt_le_weak. exact E.
  - apply Qltb_false in E. symmetry. apply Q.max_l. exact E.
Qed.

(** [max(0, min(100, x))] and [min(100, max(0, x))] are both [clamp(x, 0, 100)]. *)
Lemma py_clamp_spec (x : Q) : (py_max 0 (py_min 100 x) == spec_clamp x 0 100)%Q.
Proof.
  unfold spec_clamp. rewrite py_max_Qmax, py_min_Qmin.
  destruct (Qlt_le_dec x 0) as [H|H].
  - rewrite (Q.max_l 0 x) by (apply Qlt_le_weak; exact H).
    rewrite (Q.min_r 100 0) by discriminate.
    apply Q.max_l. apply Qle_trans with x; [apply Q.le_min_r | apply Qlt_le_weak; exact H].
  - rewrite (Q.max_r 0 x) by exact H.
    apply Q.max_r. apply Q.min_glb; [discriminate | exact H].
Qed.

Lemma py_clamp_spec' (x : Q) : (py_min 100 (py_max 0 x) == spec_clamp x 0 100)%Q.
Proof.
  unfold spec_clamp. rewrite py_min_Qmin, py_max_Qmax. reflexivity.
Qed.

Lemma py_sum_Q_three (a b c : Q) : (py_sum_Q [a; b; c] == a + b + c)%Q.
Proof. unfold py_sum_Q. simpl. rewrite Qplus_0_l. reflexivity. Qed.

(** C6: for total thrust > 0, mass > 0 and gravity > 0 the score is
    [clamp(base - penalty, 0, 100)] with [base = clamp(twr*20, 0, 100)],
    [twr = totalThrust / (mass*gravity)] and
    [penalty = (sum of |value - totalThrust/3|) / totalThrust * 20]. *)
Theorem efficiency_score_formula (s : GridSpecifications) :
  (0 < calculate_total_thrust s)%Z -> (0 < mass s)%Q -> (0 < gravity s)%Q ->
  exists v, calculate_efficiency_score s = Ok v /\ (v == spec_efficiency_score s)%Q.
Proof.
  intros Ht Hm Hg.
  assert (Hm0 : ~ (mass s == 0)%Q)
    by (intro E; rewrite E in Hm; exact (Qlt_irrefl 0 Hm)).
  assert (Hg0 : ~ (gravity s == 0)%Q)
    by (intro E; rewrite E in Hg; exact (Qlt_irrefl 0 Hg)).
  unfold calculate_efficiency_score.
  assert (E1 : (calculate_total_thrust s =? 0)%Z = false) by (apply Z.eqb_neq; lia).
  assert (E2 : Qeq_bool (mass s) 0 = false).
  { destruct (Qeq_bool (mass s) 0) eqn:E; [|reflexivity].
    apply Qeq_bool_iff in E. contradiction. }
  assert (E3 : (0 <? calculate_total_thrust s)%Z = true) by (apply Z.ltb_lt; exact Ht).
  rewrite E1, E2. simpl.
  rewrite (py_div_nonzero _ _ (Qmult_nonzero _ _ Hm0 Hg0)). simpl.
  rewrite E3.
  rewrite py_div_nonzero by (apply inject_Z_nonzero; lia). cbn [bind].
  eexists. split; [reflexivity|].
  unfold spec_efficiency_score.
  rewrite py_clamp_spec. unfold spec_clamp at 1.
  rewrite py_clamp_spec'. unfold spec_clamp.
  unfold thrust_values. cbn [map]. rewrite py_sum_Q_three.
  reflexivity.
Qed.

Lemma efficiency_score_formula_witness :
  (0 < calculate_total_thrust scenario_grid)%Z /\ (0 < mass scenario_grid)%Q
  /\ (0 < gravity scenario_grid)%Q
  /\ exists v, calculate_efficiency_score scenario_grid = Ok v
               /\ (v == spec_efficiency_score scenario_grid)%Q.
Proof.
  split; [reflexivity|]. split; [reflexivity|]. split; [reflexivity|].
  apply efficiency_score_formula; reflexivity.
Defined.

(** ** C7 *)

(** The thrust-to-weight ratio as the spec defines it: 0 when mass is 0. *)
Definition spec_twr (s : GridSpecifications) : Q :=
  if Qeq_bool (mass s) 0 then 0%Q
  else (inject_Z (calculate_total_thrust s) / (mass s * gravity s))%Q.

(** Rule (b): at most one ratio message. *)
Definition twr_advice (twr : Q) : list string :=
  if Qeq_bool twr 0 then [MSG_TWR_ZERO]
  else if Qltb twr (3 # 2) then [MSG_TWR_LOW]
  else if Qltb 4 twr then [MSG_TWR_HIGH]
  else [].

(** The suggestion rules (a)-(d) in the spec's order. *)
Definition spec_suggested_changes (s : GridSpecifications) : list string :=
  if (calculate_total_thrust s =? 0)%Z then [MSG_ADD_THRUSTERS] else
  let th := calculate_thrust_by_type s in
  let hover := (mass s * gravity s)%Q in
  (twr_advice (spec_twr s)
   ++ (if Qltb (inject_Z (t_atmospheric th)) hover then [MSG_ATMO] else [])
   ++ (if Qltb (inject_Z (t_ion th + t_hydrogen th)) hover then [MSG_SPACE] else []))%list.

Definition counts_nonneg (s : GridSpecifications) : Prop :=
  (0 <= small (atmospheric_thrusters s) /\ 0 <= large (atmospheric_thrusters s)
   /\ 0 <= small (ion_thrusters s) /\ 0 <= large (ion_thrusters s)
   /\ 0 <= small (hydrogen_thrusters s) /\ 0 <= large (hydrogen_thrusters s))%Z.

Lemma thrusts_nonneg (s : GridSpecifications) :
  counts_nonneg s ->
  (0 <= t_atmospheric (calculate_thrust_by_type s)
   /\ 0 <= t_ion (calculate_thrust_by_type s) + t_hydrogen (calculate_thrust_by_type s))%Z.
Proof.
  unfold counts_nonneg, calculate_thrust_by_type, calculate_thrust. simpl. lia.
Qed.

(** A thrust that is not negative is not below a zero hover thrust. *)
Lemma Qltb_nonneg_zero (z : Z) (h : Q) :
  (0 <= z)%Z -> (h == 0)%Q -> Qltb (inject_Z z) h = false.
Proof.
  intros Hz Hh. apply Qltb_false. rewrite Hh.
  change 0%Q with (inject_Z 0). rewrite <- Zle_Qle. exact Hz.
Qed.

(** C7 (counterexample): mass 1, gravity 0 and one small atmospheric thruster:
    total thrust is not 0, yet [_generate_suggested_changes] raises
    [ZeroDivisionError] instead of returning a sequence. *)
Lemma suggested_changes_zero_gravity_raises :
  generate_suggested_changes zero_gravity_grid = Err ZeroDivisionError.
Proof. reflexivity. Qed.

(** C7 (amended): when total thrust is 0 the result is
    [["Add thrusters to begin analysis"]], whatever the mass and gravity.
    Otherwise, for non-negative counts and non-negative mass, unless mass > 0
    and gravity = 0, the result is the ratio message (if any, with twr = 0
    when mass = 0), then the atmospheric message if atmospheric thrust <
    mass*gravity, then the space message if ion + hydrogen thrust <
    mass*gravity.  With gravity 0, mass > 0 and non-zero thrust it raises
    [ZeroDivisionError]. *)
Theorem suggested_changes_rules (s : GridSpecifications) :
  (calculate_total_thrust s = 0%Z ->
   generate_suggested_changes s = Ok [MSG_ADD_THRUSTERS])
  /\ (counts_nonneg s -> (0 <= mass s)%Q -> ((mass s == 0)%Q \/ ~ (gravity s == 0)%Q) ->
      generate_suggested_changes s = Ok (spec_suggested_changes s))
  /\ (calculate_total_thrust s <> 0%Z -> (0 < mass s)%Q -> (gravity s == 0)%Q ->
      generate_suggested_changes s = Err ZeroDivisionError).
Proof.
  unfold generate_suggested_changes, spec_suggested_changes.
  split; [|split].
  - intros Ht. rewrite Ht. reflexivity.
  - intros Hc Hm Hmg.
    destruct (calculate_total_thrust s =? 0)%Z eqn:Et; [reflexivity|].
    destruct (thrusts_nonneg s Hc) as [Ha Hs].
    unfold guarded_twr, spec_twr.
    destruct (Qltb 0 (mass s)) eqn:Em.
    + apply Qltb_true in Em.
      assert (Hm0 : ~ (mass s == 0)%Q)
        by (intro E; rewrite E in Em; exact (Qlt_irrefl 0 Em)).
      assert (Hg0 : ~ (gravity s == 0)%Q) by (destruct Hmg; [contradiction | assumption]).
      rewrite (py_div_nonzero _ _ (Qmult_nonzero _ _ Hm0 Hg0)).
      assert (E : Qeq_bool (mass s) 0 = false).
      { destruct (Qeq_bool (mass s) 0) eqn:E; [|reflexivity].
        apply Qeq_bool_iff in E. contradiction. }
      rewrite E. cbn [bind andb]. unfold twr_advice.
      rewrite app_assoc. reflexivity.
    + apply Qltb_false in Em.
      assert (Hm0 : (mass s == 0)%Q) by (apply Qle_antisym; assumption).
      assert (E : Qeq_bool (mass s) 0 = true) by (apply Qeq_bool_iff; exact Hm0).
      assert (Hh : (mass s * gravity s == 0)%Q) by (rewrite Hm0; apply Qmult_0_l).
      rewrite E. cbn [bind andb].
      rewrite (Qltb_nonneg_zero _ _ Ha Hh), (Qltb_nonneg_zero _ _ Hs Hh).
      unfold twr_advice. reflexivity.
  - intros Ht Hm Hg.
    assert (Et : (calculate_total_thrust s =? 0)%Z = false) by (apply Z.eqb_neq; exact Ht).
    rewrite Et. unfold guarded_twr.
    assert (Em : Qltb 0 (mass s) = true) by (apply Qltb_true; exact Hm).
    rewrite Em, py_div_zero; [reflexivity|].
    rewrite Hg. apply Qmult_0_r.
Qed.

(** Mass 0 with gravity 0 and one small atmospheric thruster. *)
Definition zero_mass_zero_gravity_grid : GridSpecifications :=
  {| mass := 0; gravity := 0;
     atmospheric_thrusters := {| small := 1; large := 0 |};
     ion_thrusters := ThrusterCount_default;
     hydrogen_thrusters := ThrusterCount_default |}.

Lemma suggested_changes_rules_witness :
  generate_suggested_changes {| mass := 5; gravity := 0;
                                atmospheric_thrusters := ThrusterCount_default;
                                ion_thrusters := ThrusterCount_default;
                                hydrogen_thrusters := ThrusterCount_default |}
    = Ok [MSG_ADD_THRUSTERS]
  /\ generate_suggested_changes scenario_grid = Ok (spec_suggested_changes scenario_grid)
  /\ generate_suggested_changes zero_mass_zero_gravity_grid
     = Ok (spec_suggested_changes zero_mass_zero_gravity_grid)
  /\ generate_suggested_changes zero_gravity_grid = Err ZeroDivisionError.
Proof.
  split; [|split; [|split]].
  - apply (proj1 (suggested_changes_rules
                    {| mass := 5; gravity := 0;
                       atmospheric_thrusters := ThrusterCount_default;
                       ion_thrusters := ThrusterCount_default;
                       hydrogen_thrusters := ThrusterCount_default |})).
    reflexivity.
  - apply (proj1 (proj2 (suggested_changes_rules scenario_grid))).
    + unfold counts_nonneg. simpl. lia.
    + discriminate.
    + right. vm_compute. discriminate.
  - apply (proj1 (proj2 (suggested_changes_rules zero_mass_zero_gravity_grid))).
    + unfold counts_nonneg. simpl. lia.
    + discriminate.
    + left. reflexivity.
  - apply (proj2 (proj2 (suggested_changes_rules zero_gravity_grid)));
      [discriminate | reflexivity | reflexivity].
Defined.

Example suggested_changes_empty :
  generate_suggested_changes empty_grid = Ok [MSG_ADD_THRUSTERS]
  /\ calculate_efficiency_score empty_grid = Ok 0%Q.
Proof. split; reflexivity. Qed.

(** ** C8 *)

Inductive Verdict := NoThrusters | AtmosphericHeavy | IonHeavy | HydrogenHeavy | Balanced.

(** The message [_analyze_thrust_balance] returns for each verdict. *)
Definition verdict_message (v : Verdict) : string :=
  match v with
  | NoThrusters => "No thrusters configured"
  | AtmosphericHeavy => "Heavy atmospheric focus - consider diversifying for space operations"
  | IonHeavy => "Heavy ion focus - may struggle in atmosphere"
  | HydrogenHeavy => "Heavy hydrogen focus - check fuel efficiency"
  | Balanced => "Balanced thrust distribution"
  end.

(** The verdict as the spec states it: all zero, else the first type (in the
    order atmospheric, ion, hydrogen) whose share exceeds 60, else balanced. *)
Definition spec_thrust_balance_verdict (d : Distribution) : Verdict :=
  if Qeq_bool (d_atmospheric d) 0 && Qeq_bool (d_ion d) 0 && Qeq_bool (d_hydrogen d) 0
  then NoThrusters
  else match find (fun p => Qltb 60 (snd p))
               [(AtmosphericHeavy, d_atmospheric d); (IonHeavy, d_ion d);
                (HydrogenHeavy, d_hydrogen d)] with
       | Some (v, _) => v
       | None => Balanced
       end.

(** C8: [_analyze_thrust_balance] returns the message of the spec's verdict
    for every distribution; on the spec's examples 70/20/10 is atmospheric
    heavy, 0/0/0 has no thrusters and 34/33/33 is balanced. *)
Theorem thrust_balance_verdict_spec :
  (forall d, analyze_thrust_balance d = verdict_message (spec_thrust_balance_verdict d))
  /\ spec_thrust_balance_verdict {| d_atmospheric := 70; d_ion := 20; d_hydrogen := 10 |}
       = AtmosphericHeavy
  /\ analyze_thrust_balance {| d_atmospheric := 70; d_ion := 20; d_hydrogen := 10 |}
       = verdict_message AtmosphericHeavy
  /\ analyze_thrust_balance {| d_atmospheric := 0; d_ion := 0; d_hydrogen := 0 |}
       = verdict_message NoThrusters
  /\ analyze_thrust_balance {| d_atmospheric := 34; d_ion := 33; d_hydrogen := 33 |}
       = verdict_message Balanced.
Proof.
  split; [|repeat split; reflexivity].
  intros [a i h]. unfold analyze_thrust_balance, spec_thrust_balance_verdict. simpl.
  rewrite andb_true_r.
  destruct (Qeq_bool a 0), (Qeq_bool i 0), (Qeq_bool h 0),
           (Qltb 60 a), (Qltb 60 i), (Qltb 60 h); reflexivity.
Qed.

(** ** C9 *)

Lemma ThrusterCount_roundtrip (tc : ThrusterCount) :
  ThrusterCount_from_dict (ThrusterCount_to_dict tc) = Ok tc.
Proof. destruct tc. reflexivity. Qed.

(** C9: [from_dict(to_dict(s))] gives back [s] field by field, and so does
    [Preset.load(p.save())] whenever [json.loads] inverts [json.dumps]. *)
Theorem grid_dict_and_preset_roundtrip {J : Type}
    (json_dumps : pyval -> J) (json_loads : J -> result pyval)
    (Hjson : forall v, json_loads (json_dumps v) = Ok v)
    (s : GridSpecifications) (p : Preset) :
  GridSpecifications_from_dict (GridSpecifications_to_dict s) = Ok s
  /\ Preset_load json_loads (Preset_save json_dumps p) = Ok p.
Proof.
  assert (R : forall g, GridSpecifications_from_dict (GridSpecifications_to_dict g) = Ok g).
  { intros [m gr [a1 a2] [i1 i2] [h1 h2]]. reflexivity. }
  split; [apply R|].
  unfold Preset_load, Preset_save. rewrite Hjson.
  destruct p as [n sp]. cbn [bind name specifications].
  assert (G1 : forall x, getitem (PyDict [("name", PyStr n); ("specifications", x)]) "name"
                         = Ok (PyStr n)) by reflexivity.
  assert (G2 : forall x, getitem (PyDict [("name", PyStr n); ("specifications", x)])
                                 "specifications" = Ok x) by reflexivity.
  rewrite G1. cbn [bind as_str]. rewrite G2. cbn [bind]. rewrite R. reflexivity.
Qed.

Lemma grid_dict_and_preset_roundtrip_witness :
  (forall v : pyval, Ok v = Ok v)
  /\ GridSpecifications_from_dict (GridSpecifications_to_dict scenario_grid) = Ok scenario_grid
  /\ Preset_load Ok (Preset_save (fun v => v) {| name := "lifter"; specifications := scenario_grid |})
     = Ok {| name := "lifter"; specifications := scenario_grid |}.
Proof.
  split; [reflexivity|].
  apply (grid_dict_and_preset_roundtrip (fun v => v) Ok (fun v => eq_refl)).
Defined.

(** ** C10 *)

(** C10: after construction each thruster field is the argument given, or
    [ThrusterCount(small=0, large=0)] when the argument is omitted or [None];
    an omitted gravity is 9.81; so with every thruster argument omitted the
    grid is fully populated and its thrust metrics evaluate (to 0). *)
Theorem grid_constructor_defaults (m : Q) (g : option Q)
    (atm ion_arg hyd : option ThrusterCount) :
  let r := GridSpecifications_init m g atm ion_arg hyd in
  atmospheric_thrusters r
    = match atm with Some t => t | None => {| small := 0; large := 0 |} end
  /\ ion_thrusters r
    = match ion_arg with Some t => t | None => {| small := 0; large := 0 |} end
  /\ hydrogen_thrusters r
    = match hyd with Some t => t | None => {| small := 0; large := 0 |} end
  /\ gravity r = match g with Some x => x | None => (981 # 100)%Q end
  /\ GridSpecifications_init m None None None None
     = {| mass := m; gravity := 981 # 100;
          atmospheric_thrusters := {| small := 0; large := 0 |};
          ion_thrusters := {| small := 0; large := 0 |};
          hydrogen_thrusters := {| small := 0; large := 0 |} |}
  /\ calculate_thrust_by_type (GridSpecifications_init m g None None None)
     = {| t_atmospheric := 0; t_ion := 0; t_hydrogen := 0 |}
  /\ calculate_total_thrust (GridSpecifications_init m g None None None) = 0%Z.
Proof.
  simpl. destruct atm, ion_arg, hyd; repeat split.
Qed.

(** * Further code: block masses, improvement suggestions, session presets and
    comparison charts *)

(** ** block_specs.py *)

(** [BLOCK_MASSES] (kg), looked up by block type; [None] for a type the table
    does not list. *)
Definition BLOCK_MASSES (block_type : string) : option SizeSpecs :=
  if String.eqb block_type "light_armor_block" then Some {| spec_small := 25; spec_large := 1220 |}
  else if String.eqb block_type "heavy_armor_block" then Some {| spec_small := 87; spec_large := 4170 |}
  else if String.eqb block_type "steel_plate" then Some {| spec_small := 20; spec_large := 980 |}
  else if String.eqb block_type "interior_plate" then Some {| spec_small := 3; spec_large := 120 |}
  else if String.eqb block_type "cargo_container" then Some {| spec_small := 128; spec_large := 2175 |}
  else if String.eqb block_type "refinery" then Some {| spec_small := 2000; spec_large := 15400 |}
  else if String.eqb block_type "assembler" then Some {| spec_small := 1000; spec_large := 3360 |}
  else if String.eqb block_type "reactor" then Some {| spec_small := 368; spec_large := 4860 |}
  else None.

(** One iteration of the loop of [calculate_total_mass]. *)
Definition add_block_mass (total_mass : Q) (entry : string * (Z * Z)) : Q :=
  let '(block_type, (small_count, large_count)) := entry in
  match BLOCK_MASSES block_type with
  | Some block_specs =>
      (total_mass + inject_Z (small_count * spec_small block_specs
                              + large_count * spec_large block_specs))%Q
  | None => total_mass
  end.

(** [calculate_total_mass(block_counts)]: [block_counts.items()] in order,
    starting from [0.0]. *)
Definition calculate_total_mass (block_counts : list (string * (Z * Z))) : Q :=
  fold_left add_block_mass block_counts 0%Q.

(** ** ai_assistant.py : [suggest_improvements] *)

Record Suggestions := {
  thrust_balance : string;
  efficiency_score : Q;
  suggested_changes : list string
}.

(** [(v / total_thrust) * 100 if total_thrust > 0 else 0] *)
Definition percentage (v total_thrust : Z) : Q :=
  if (0 <? total_thrust)%Z then (inject_Z v / inject_Z total_thrust * 100)%Q else 0%Q.

(** [ThrusterAIAssistant.suggest_improvements]; the dict literal evaluates
    its values in order: balance, score, then changes. *)
Definition suggest_improvements (current_specs : GridSpecifications) : result Suggestions :=
  let thrusts := calculate_thrust_by_type current_specs in
  let total_thrust := calculate_total_thrust current_specs in
  if (total_thrust =? 0)%Z then
    Ok {| thrust_balance := "No thrusters configured";
          efficiency_score := 0;
          suggested_changes := [MSG_ADD_THRUSTERS] |}
  else
    let thrust_distribution :=
      {| d_atmospheric := percentage (t_atmospheric thrusts) total_thrust;
         d_ion := percentage (t_ion thrusts) total_thrust;
         d_hydrogen := percentage (t_hydrogen thrusts) total_thrust |} in
    let balance := analyze_thrust_balance thrust_distribution in
    let* score := calculate_efficiency_score current_specs in
    let* changes := generate_suggested_changes current_specs in
    Ok {| thrust_balance := balance; efficiency_score := score;
          suggested_changes := changes |}.

(** ** utils.py : session presets and comparison charts *)

(** Python [d.get(k)] on a dict kept as its item list in insertion order. *)
Fixpoint dict_get {V : Type} (k : string) (d : list (string * V)) : option V :=
  match d with
  | [] => None
  | (k', v) :: rest => if String.eqb k k' then Some v else dict_get k rest
  end.

(** Python [d[k] = v]: an existing key keeps its position, a new key goes last. *)
Fixpoint dict_set {V : Type} (k : string) (v : V) (d : list (string * V)) : list (string * V) :=
  match d with
  | [] => [(k, v)]
  | (k', v') :: rest =>
      if String.eqb k k' then (k, v) :: rest else (k', v') :: dict_set k v rest
  end.

Section SessionPresets.
Context {json_text : Type}.
Variable json_dumps : pyval -> json_text.
Variable json_loads : json_text -> result pyval.

(** [st.session_state.presets]: absent ([None]) until the first save. *)
Definition PresetStore : Type := option (list (string * json_text)).

(** [save_preset(preset)] *)
Definition save_preset (store : PresetStore) (preset : Preset) : PresetStore :=
  let presets := match store with Some d => d | None => [] end in
  Some (dict_set (name preset) (Preset_save json_dumps preset) presets).

(** [load_preset(name)]: [None] when there is no store or no such name. *)
Definition load_preset (store : PresetStore) (n : string) : result (option Preset) :=
  match store with
  | None => Ok None
  | Some presets =>
      match dict_get n presets with
      | None => Ok None
      | Some data => bind (Preset_load json_loads data) (fun p => Ok (Some p))
      end
  end.

(** The three bars [create_comparison_chart] adds for one grid. *)
Definition thrust_rows (grid : string) (specs : GridSpecifications) : list (string * string * Z) :=
  let thrusts := calculate_thrust_by_type specs in
  [(grid, "Atmospheric", t_atmospheric thrusts);
   (grid, "Ion", t_ion thrusts);
   (grid, "Hydrogen", t_hydrogen thrusts)].

(** The loop of [create_comparison_chart(presets)] building its [data] list. *)
Fixpoint comparison_chart_data (presets : list (string * json_text))
    : result (list (string * string * Z)) :=
  match presets with
  | [] => Ok []
  | (grid, preset_json) :: rest =>
      let* preset := Preset_load json_loads preset_json in
      let* more := comparison_chart_data rest in
      Ok (thrust_rows grid (specifications preset) ++ more)%list
  end.

(** [create_comparison_chart(presets)]: the rows above, then
    [px.bar(pd.DataFrame(data), x='Grid', ...)].  An empty [data] gives a
    DataFrame without a ['Grid'] column, which [px.bar] rejects with
    [ValueError]; otherwise the figure plots exactly the rows. *)
Definition create_comparison_chart (presets : list (string * json_text))
    : result (list (string * string * Z)) :=
  let* data := comparison_chart_data presets in
  match data with
  | [] => Err (ValueError "Value of 'x' is not the name of a column in 'data_frame'")
  | _ => Ok data
  end.
End SessionPresets.

(** The [r] vector [create_metrics_comparison] plots for one grid:
    [total / 1e7], [lift / 1e6 if lift > 0 else 0], [min(twr / 10, 1)]. *)
Definition metrics_point (specs : GridSpecifications) : result (Q * Q * Q) :=
  let total_thrust := calculate_total_thrust specs in
  let* lift_capacity := calculate_lift_capacity specs in
  let* twr := py_div (inject_Z total_thrust) (mass specs * gravity specs)%Q in
  Ok ((inject_Z total_thrust / 10000000)%Q,
      (if Qltb 0 lift_capacity then lift_capacity / 1000000 else 0)%Q,
      py_min (twr / 10) 1).

(** * Properties of the further code *)

(** ** Thrust and lift *)

(** With non-negative counts, the total thrust is non-negative, and it is 0
    exactly when all six thruster counts are 0. *)
Theorem total_thrust_zero_iff_no_thrusters (s : GridSpecifications) :
  counts_nonneg s ->
  (0 <= calculate_total_thrust s)%Z
  /\ (calculate_total_thrust s = 0%Z <->
      small (atmospheric_thrusters s) = 0%Z /\ large (atmospheric_thrusters s) = 0%Z
      /\ small (ion_thrusters s) = 0%Z /\ large (ion_thrusters s) = 0%Z
      /\ small (hydrogen_thrusters s) = 0%Z /\ large (hydrogen_thrusters s) = 0%Z).
Proof.
  unfold counts_nonneg, calculate_total_thrust, py_sum, thrust_values,
    calculate_thrust_by_type, calculate_thrust. simpl. lia.
Qed.

Lemma total_thrust_zero_iff_no_thrusters_witness :
  counts_nonneg scenario_grid
  /\ (0 <= calculate_total_thrust scenario_grid)%Z
  /\ (calculate_total_thrust scenario_grid = 0%Z <->
      small (atmospheric_thrusters scenario_grid) = 0%Z
      /\ large (atmospheric_thrusters scenario_grid) = 0%Z
      /\ small (ion_thrusters scenario_grid) = 0%Z /\ large (ion_thrusters scenario_grid) = 0%Z
      /\ small (hydrogen_thrusters scenario_grid) = 0%Z
      /\ large (hydrogen_thrusters scenario_grid) = 0%Z).
Proof.
  assert (H : counts_nonneg scenario_grid) by (unfold counts_nonneg; simpl; lia).
  split; [exact H|]. apply total_thrust_zero_iff_no_thrusters. exact H.
Defined.

(** With gravity > 0 the lift capacity [l] is defined, it is non-negative
    exactly when the total thrust covers the hover thrust [mass * gravity],
    and [l * gravity + mass * gravity] is the total thrust. *)
Theorem lift_capacity_hover (s : GridSpecifications) :
  (0 < gravity s)%Q ->
  exists l, calculate_lift_capacity s = Ok l
    /\ ((0 <= l)%Q <-> (mass s * gravity s <= inject_Z (calculate_total_thrust s))%Q)
    /\ (l * gravity s + mass s * gravity s == inject_Z (calculate_total_thrust s))%Q.
Proof.
  intros Hg.
  assert (Hg0 : ~ (gravity s == 0)%Q)
    by (intro E; rewrite E in Hg; exact (Qlt_irrefl 0 Hg)).
  unfold calculate_lift_capacity. rewrite (py_div_nonzero _ _ Hg0).
  eexists. split; [reflexivity|].
  set (T := inject_Z (calculate_total_thrust s)).
  set (H := (mass s * gravity s)%Q).
  assert (Hmul : ((T - H) / gravity s * gravity s == T - H)%Q)
    by (unfold Qdiv; rewrite <- Qmult_assoc, (Qmult_comm (/ gravity s)), Qmult_inv_r
          by exact Hg0; apply Qmult_1_r).
  split.
  - rewrite (Qle_minus_iff H T). split; intros Hl.
    + change (0 <= T - H)%Q. rewrite <- Hmul. apply Qmult_le_0_compat; [exact Hl | apply Qlt_le_weak; exact Hg].
    + unfold Qdiv. apply Qmult_le_0_compat; [exact Hl|].
      apply Qinv_le_0_compat. apply Qlt_le_weak. exact Hg.
  - rewrite Hmul. unfold Qminus. rewrite <- Qplus_assoc, (Qplus_comm (- H)), Qplus_opp_r.
    apply Qplus_0_r.
Qed.

Lemma lift_capacity_hover_witness :
  (0 < gravity scenario_grid)%Q
  /\ exists l, calculate_lift_capacity scenario_grid = Ok l
    /\ ((0 <= l)%Q <-> (mass scenario_grid * gravity scenario_grid
                         <= inject_Z (calculate_total_thrust scenario_grid))%Q)
    /\ (l * gravity scenario_grid + mass scenario_grid * gravity scenario_grid
        == inject_Z (calculate_total_thrust scenario_grid))%Q.
Proof. split; [reflexivity | apply lift_capacity_hover; reflexivity]. Defined.

(** ** Block masses *)

Lemma add_block_mass_compat (a b : Q) (e : string * (Z * Z)) :
  (a == b)%Q -> (add_block_mass a e == add_block_mass b e)%Q.
Proof.
  intros H. destruct e as [bt [sc lc]]. unfold add_block_mass.
  destruct (BLOCK_MASSES bt); [rewrite H|]; [reflexivity | exact H].
Qed.

Lemma fold_block_mass_compat (l : list (string * (Z * Z))) (a b : Q) :
  (a == b)%Q -> (fold_left add_block_mass l a == fold_left add_block_mass l b)%Q.
Proof.
  revert a b. induction l as [|e l IH]; intros a b H; simpl; [exact H|].
  apply IH. apply add_block_mass_compat. exact H.
Qed.

Lemma fold_block_mass_shift (l : list (string * (Z * Z))) (acc : Q) :
  (fold_left add_block_mass l acc == acc + calculate_total_mass l)%Q.
Proof.
  unfold calculate_total_mass. revert acc.
  induction l as [|[bt [sc lc]] l IH]; intros acc; simpl.
  - rewrite Qplus_0_r. reflexivity.
  - destruct (BLOCK_MASSES bt) as [bs|].
    + rewrite (IH (acc + _)%Q), (IH (0 + _)%Q).
      rewrite Qplus_0_l, Qplus_assoc. reflexivity.
    + apply IH.
Qed.

(** [calculate_total_mass] adds up over the entries of [block_counts]: the
    mass of two concatenated entry lists is the sum of their masses, and
    entries whose block type is not in [BLOCK_MASSES] contribute nothing. *)
Theorem total_mass_additive_ignores_unknown (l1 l2 : list (string * (Z * Z))) :
  (calculate_total_mass (l1 ++ l2) == calculate_total_mass l1 + calculate_total_mass l2)%Q
  /\ (calculate_total_mass
        (filter (fun e => match BLOCK_MASSES (fst e) with Some _ => true | None => false end) l1)
      == calculate_total_mass l1)%Q.
Proof.
  split.
  - unfold calculate_total_mass at 1. rewrite fold_left_app.
    apply fold_block_mass_shift.
  - induction l1 as [|[bt [sc lc]] l IH]; [reflexivity|].
    simpl. destruct (BLOCK_MASSES bt) as [bs|] eqn:E.
    + unfold calculate_total_mass. simpl. rewrite E. simpl.
      rewrite !fold_block_mass_shift. fold (calculate_total_mass l).
      rewrite IH. reflexivity.
    + unfold calculate_total_mass at 2. simpl. rewrite E. exact IH.
Qed.

(** With non-negative block counts the computed mass is non-negative. *)
Theorem total_mass_nonneg (l : list (string * (Z * Z))) :
  Forall (fun e => (0 <= fst (snd e))%Z /\ (0 <= snd (snd e))%Z) l ->
  (0 <= calculate_total_mass l)%Q.
Proof.
  induction l as [|[bt [sc lc]] l IH]; intros Hl; [discriminate|].
  inversion Hl as [|? ? [Hs Hl'] Hrest]; subst. simpl in Hs, Hl'.
  unfold calculate_total_mass. simpl.
  rewrite fold_block_mass_shift.
  assert (H0 : (0 <= add_block_mass 0 (bt, (sc, lc)))%Q).
  { unfold add_block_mass. destruct (BLOCK_MASSES bt) as [bs|] eqn:E; [|discriminate].
    rewrite Qplus_0_l. change 0%Q with (inject_Z 0). rewrite <- Zle_Qle.
    unfold BLOCK_MASSES in E.
    repeat (match type of E with context [if ?c then _ else _] => destruct c end);
      try discriminate; injection E as <-; simpl; lia. }
  apply (Qplus_le_compat 0 _ 0 _ H0 (IH Hrest)).
Qed.

Lemma total_mass_nonneg_witness :
  Forall (fun e => (0 <= fst (snd e))%Z /\ (0 <= snd (snd e))%Z)
         [("steel_plate", (4%Z, 2%Z)); ("unknown", (1%Z, 0%Z))]
  /\ (0 <= calculate_total_mass [("steel_plate", (4%Z, 2%Z)); ("unknown", (1%Z, 0%Z))])%Q.
Proof.
  assert (H : Forall (fun e => (0 <= fst (snd e))%Z /\ (0 <= snd (snd e))%Z)
                     [("steel_plate", (4%Z, 2%Z)); ("unknown", (1%Z, 0%Z))])
    by (repeat constructor; simpl; lia).
  split; [exact H | apply total_mass_nonneg; exact H].
Defined.

(** ** Dict forms *)

(** [ThrusterCount.from_dict] takes only the keywords [small] and [large]:
    any other key raises [TypeError]; a missing one takes its default 0. *)
Theorem thruster_from_dict_keywords (kvs : list (string * pyval)) (k : string) (v : pyval)
    (z : Z) :
  (In (k, v) kvs -> k <> "small" -> k <> "large" ->
   ThrusterCount_from_dict (PyDict kvs) = Err (TypeError "unexpected keyword argument"))
  /\ ThrusterCount_from_dict (PyDict [("small", PyInt z)]) = Ok {| small := z; large := 0 |}
  /\ ThrusterCount_from_dict (PyDict [("large", PyInt z)]) = Ok {| small := 0; large := z |}
  /\ ThrusterCount_from_dict (PyDict []) = Ok ThrusterCount_default.
Proof.
  split; [|repeat split].
  intros Hin Hs Hl. unfold ThrusterCount_from_dict.
  destruct (forallb _ kvs) eqn:E; [|reflexivity].
  rewrite forallb_forall in E. specialize (E _ Hin). simpl in E.
  apply orb_true_iff in E as [E|E]; apply String.eqb_eq in E; contradiction.
Qed.

Lemma thruster_from_dict_keywords_witness :
  ThrusterCount_from_dict (PyDict [("small", PyInt 1); ("medium", PyInt 2)])
    = Err (TypeError "unexpected keyword argument").
Proof.
  apply (proj1 (thruster_from_dict_keywords _ "medium" (PyInt 2) 0));
    [right; left; reflexivity | discriminate | discriminate].
Defined.

(** [GridSpecifications.from_dict] on any dict without a [gravity] entry
    builds, when it succeeds, a grid with the default gravity 9.81. *)
Theorem grid_from_dict_default_gravity (kvs : list (string * pyval)) (g : GridSpecifications) :
  assoc "gravity" kvs = None ->
  GridSpecifications_from_dict (PyDict kvs) = Ok g ->
  gravity g = GRAVITY_DEFAULT.
Proof.
  intros Hg H. unfold GridSpecifications_from_dict in H.
  destruct (bind (getitem (PyDict kvs) "atmospheric_thrusters") ThrusterCount_from_dict)
    as [atm|e]; [|discriminate H]. cbn [bind] in H.
  destruct (bind (getitem (PyDict kvs) "ion_thrusters") ThrusterCount_from_dict)
    as [ion_tc|e]; [|discriminate H]. cbn [bind] in H.
  destruct (bind (getitem (PyDict kvs) "hydrogen_thrusters") ThrusterCount_from_dict)
    as [hyd|e]; [|discriminate H]. cbn [bind] in H.
  destruct (forallb (fun kv => is_grid_field (fst kv)) kvs); [|discriminate H].
  destruct (match assoc "mass" kvs with
            | Some v => as_float v
            | None => Err (TypeError "missing required argument: 'mass'")
            end) as [m|e]; [|discriminate H].
  cbn [bind] in H. rewrite Hg in H. cbn [bind] in H.
  injection H as <-. reflexivity.
Qed.

Lemma grid_from_dict_default_gravity_witness :
  assoc "gravity" [("ion_thrusters", PyDict []);
                   ("atmospheric_thrusters", PyDict [("large", PyInt 2)]);
                   ("mass", PyInt 1500);
                   ("hydrogen_thrusters", PyDict [("small", PyInt 1)])] = None
  /\ exists g,
     GridSpecifications_from_dict
       (PyDict [("ion_thrusters", PyDict []);
                ("atmospheric_thrusters", PyDict [("large", PyInt 2)]);
                ("mass", PyInt 1500);
                ("hydrogen_thrusters", PyDict [("small", PyInt 1)])]) = Ok g
     /\ gravity g = GRAVITY_DEFAULT.
Proof.
  split; [reflexivity|].
  eexists. split; [reflexivity|].
  exact (grid_from_dict_default_gravity
           [("ion_thrusters", PyDict []);
            ("atmospheric_thrusters", PyDict [("large", PyInt 2)]);
            ("mass", PyInt 1500);
            ("hydrogen_thrusters", PyDict [("small", PyInt 1)])] _ eq_refl eq_refl).
Defined.

(** [GridSpecifications.from_dict] requires its keys, in the order the code
    reads them: a missing [atmospheric_thrusters] raises [KeyError] with that
    key; once it parses, a missing [ion_thrusters] raises [KeyError]; once
    both parse, a missing [hydrogen_thrusters] raises [KeyError]; once all
    three parse, a missing [mass] raises a [TypeError]. *)
Theorem grid_from_dict_missing_keys (kvs : list (string * pyval)) (a i : ThrusterCount) :
  (assoc "atmospheric_thrusters" kvs = None ->
   GridSpecifications_from_dict (PyDict kvs) = Err (KeyError "atmospheric_thrusters"))
  /\ (bind (getitem (PyDict kvs) "atmospheric_thrusters") ThrusterCount_from_dict = Ok a ->
      assoc "ion_thrusters" kvs = None ->
      GridSpecifications_from_dict (PyDict kvs) = Err (KeyError "ion_thrusters"))
  /\ (bind (getitem (PyDict kvs) "atmospheric_thrusters") ThrusterCount_from_dict = Ok a ->
      bind (getitem (PyDict kvs) "ion_thrusters") ThrusterCount_from_dict = Ok i ->
      assoc "hydrogen_thrusters" kvs = None ->
      GridSpecifications_from_dict (PyDict kvs) = Err (KeyError "hydrogen_thrusters"))
  /\ (bind (getitem (PyDict kvs) "atmospheric_thrusters") ThrusterCount_from_dict = Ok a ->
      bind (getitem (PyDict kvs) "ion_thrusters") ThrusterCount_from_dict = Ok i ->
      (exists h, bind (getitem (PyDict kvs) "hydrogen_thrusters") ThrusterCount_from_dict
                 = Ok h) ->
      assoc "mass" kvs = None ->
      exists msg, GridSpecifications_from_dict (PyDict kvs) = Err (TypeError msg)).
Proof.
  assert (Gk : forall k, assoc k kvs = None -> getitem (PyDict kvs) k = Err (KeyError k))
    by (intros k Hk; unfold getitem; rewrite Hk; reflexivity).
  unfold GridSpecifications_from_dict.
  split; [|split; [|split]].
  - intros H. rewrite (Gk _ H). reflexivity.
  - intros Ha H. rewrite Ha. cbn [bind]. rewrite (Gk _ H). reflexivity.
  - intros Ha Hi H. rewrite Ha. cbn [bind]. rewrite Hi. cbn [bind].
    rewrite (Gk _ H). reflexivity.
  - intros Ha Hi [h Hh] Hm. rewrite Ha. cbn [bind]. rewrite Hi. cbn [bind].
    rewrite Hh. cbn [bind].
    destruct (forallb (fun kv => is_grid_field (fst kv)) kvs).
    + rewrite Hm. eexists. reflexivity.
    + eexists. reflexivity.
Qed.

Lemma grid_from_dict_missing_keys_witness :
  GridSpecifications_from_dict (PyDict [("mass", PyFloat 1)])
    = Err (KeyError "atmospheric_thrusters")
  /\ GridSpecifications_from_dict
       (PyDict [("mass", PyFloat 1); ("atmospheric_thrusters", PyDict [])])
     = Err (KeyError "ion_thrusters")
  /\ GridSpecifications_from_dict
       (PyDict [("atmospheric_thrusters", PyDict []); ("ion_thrusters", PyDict [])])
     = Err (KeyError "hydrogen_thrusters")
  /\ exists msg, GridSpecifications_from_dict
       (PyDict [("atmospheric_thrusters", PyDict []); ("ion_thrusters", PyDict []);
                ("hydrogen_thrusters", PyDict []); ("gravity", PyFloat 1)])
     = Err (TypeError msg).
Proof.
  split; [|split; [|split]].
  - apply (proj1 (grid_from_dict_missing_keys [("mass", PyFloat 1)]
                    ThrusterCount_default ThrusterCount_default)).
    reflexivity.
  - apply (proj1 (proj2 (grid_from_dict_missing_keys
                           [("mass", PyFloat 1); ("atmospheric_thrusters", PyDict [])]
                           ThrusterCount_default ThrusterCount_default)));
      reflexivity.
  - apply (proj1 (proj2 (proj2 (grid_from_dict_missing_keys
                           [("atmospheric_thrusters", PyDict []); ("ion_thrusters", PyDict [])]
                           ThrusterCount_default ThrusterCount_default))));
      reflexivity.
  - apply (proj2 (proj2 (proj2 (grid_from_dict_missing_keys
                           [("atmospheric_thrusters", PyDict []); ("ion_thrusters", PyDict []);
                            ("hydrogen_thrusters", PyDict []); ("gravity", PyFloat 1)]
                           ThrusterCount_default ThrusterCount_default)))).
    + reflexivity.
    + reflexivity.
    + exists ThrusterCount_default. reflexivity.
    + reflexivity.
Defined.

(** ** Splitting the advisory reply *)

Lemma string_app_assoc (a b c : string) : (a ++ b) ++ c = a ++ (b ++ c).
Proof. induction a as [|x a IH]; simpl; [reflexivity | rewrite IH; reflexivity]. Qed.

Lemma string_app_nil (a : string) : a ++ "" = a.
Proof. induction a as [|x a IH]; simpl; [reflexivity | rewrite IH; reflexivity]. Qed.

Lemma concat_cons_nonempty (sep x : string) (l : list string) :
  l <> [] -> String.concat sep (x :: l) = x ++ sep ++ String.concat sep l.
Proof. destruct l; [contradiction | reflexivity]. Qed.

Lemma split_blank_aux_join (n : nat) (s cur : string) :
  (String.length s <= n)%nat ->
  split_blank_aux s cur <> []
  /\ String.concat (NL ++ NL) (split_blank_aux s cur) = cur ++ s.
Proof.
  revert s cur. induction n as [|n IH]; intros s cur Hn.
  - destruct s; [|simpl in Hn; lia].
    split; [discriminate | symmetry; apply string_app_nil].
  - destruct s as [|c s'].
    + split; [discriminate | symmetry; apply string_app_nil].
    + simpl in Hn.
      assert (Step : split_blank_aux s' (cur ++ String c "") <> []
                     /\ String.concat (NL ++ NL) (split_blank_aux s' (cur ++ String c ""))
                        = cur ++ String c s').
      { destruct (IH s' (cur ++ String c "")) as [Hne Hj]; [lia|].
        split; [exact Hne|]. rewrite Hj, string_app_assoc. reflexivity. }
      cbn [split_blank_aux]. destruct (Ascii.eqb c (ascii_of_nat 10)) eqn:Ec; [|exact Step].
      destruct s' as [|c2 s'']; [exact Step|].
      destruct (Ascii.eqb c2 (ascii_of_nat 10)) eqn:Ec2; [|exact Step].
      apply Ascii.eqb_eq in Ec, Ec2. subst c c2.
      simpl in Hn.
      destruct (IH s'' "") as [Hne Hj]; [lia|].
      split; [discriminate|].
      rewrite concat_cons_nonempty by exact Hne. rewrite Hj. reflexivity.
Qed.

(** Splitting a reply on blank lines loses nothing: there is always at least
    one segment, and joining the segments with ["\n\n"] gives back the
    reply. *)
Theorem split_blank_join (s : string) :
  split_blank s <> [] /\ String.concat (NL ++ NL) (split_blank s) = s.
Proof. apply (split_blank_aux_join (String.length s)). apply le_n. Qed.

(** When the external call replies with text [t] (and gravity is non-zero),
    the efficiency field is the start of [t] up to its first blank line: a
    prefix of the reply, never the "Analysis unavailable" placeholder unless
    the reply itself starts with it. *)
Theorem analyze_grid_reply_efficiency_prefix (fmt_thousands fmt_fixed2 : Q -> string)
    (chat : string -> string -> ChatOutcome) (t : string) (s : GridSpecifications) :
  (forall sys prompt, chat sys prompt = ChatReply t) -> ~ (gravity s == 0)%Q ->
  exists r rest, analyze_grid fmt_thousands fmt_fixed2 chat s = Ok r
    /\ efficiency r = nth 0 (split_blank t) ""
    /\ t = efficiency r ++ rest.
Proof.
  intros Hchat Hg.
  unfold analyze_grid, calculate_lift_capacity. rewrite (py_div_nonzero _ _ Hg). simpl.
  destruct (guarded_twr_ok s (calculate_total_thrust s) Hg) as [v Hv].
  rewrite Hv. simpl. rewrite Hchat. simpl.
  destruct (split_blank_join t) as [Hne Hj].
  destruct (split_blank t) as [|x l] eqn:E; [contradiction|].
  simpl. eexists; exists (match l with [] => "" | _ => NL ++ NL ++ String.concat (NL ++ NL) l end).
  split; [reflexivity|]. split; [reflexivity|].
  rewrite <- Hj at 1. destruct l as [|y l]; [symmetry; apply string_app_nil|].
  rewrite concat_cons_nonempty by discriminate. rewrite string_app_assoc. reflexivity.
Qed.

Definition two_part_chat (_ _ : string) : ChatOutcome :=
  ChatReply ("Good" ++ NL ++ NL ++ "Add ion").

Lemma analyze_grid_reply_efficiency_prefix_witness :
  exists r rest, analyze_grid no_format no_format two_part_chat scenario_grid = Ok r
    /\ efficiency r = nth 0 (split_blank ("Good" ++ NL ++ NL ++ "Add ion")) ""
    /\ "Good" ++ NL ++ NL ++ "Add ion" = efficiency r ++ rest.
Proof.
  apply analyze_grid_reply_efficiency_prefix; [reflexivity | discriminate].
Defined.

(** ** Improvement suggestions *)

(** The efficiency score is defined and in [[0, 100]] whenever gravity is
    non-zero. *)
Lemma efficiency_score_defined (s : GridSpecifications) :
  ~ (gravity s == 0)%Q ->
  exists v, calculate_efficiency_score s = Ok v /\ (0 <= v <= 100)%Q.
Proof.
  intros Hg. unfold calculate_efficiency_score.
  destruct ((calculate_total_thrust s =? 0)%Z || Qeq_bool (mass s) 0) eqn:E.
  - exists 0%Q. split; [reflexivity|]. split; discriminate.
  - apply orb_false_iff in E. destruct E as [_ Em].
    apply Qeq_bool_neq in Em.
    rewrite (py_div_nonzero _ _ (Qmult_nonzero _ _ Em Hg)). cbn [bind].
    destruct (0 <? calculate_total_thrust s)%Z eqn:Hp.
    + rewrite py_div_nonzero by (apply inject_Z_nonzero; apply Z.ltb_lt in Hp; lia).
      cbn [bind]. eexists. split; [reflexivity|]. apply py_clamp_range.
    + cbn [bind]. eexists. split; [reflexivity|]. apply py_clamp_range.
Qed.

Lemma percentage_pos (v t : Z) : (0 < v)%Z -> (0 < t)%Z -> (0 < percentage v t)%Q.
Proof.
  intros Hv Ht. unfold percentage.
  assert (E : (0 <? t)%Z = true) by (apply Z.ltb_lt; exact Ht). rewrite E.
  apply Qmult_lt_0_compat; [|reflexivity].
  unfold Qdiv. apply Qmult_lt_0_compat.
  - change 0%Q with (inject_Z 0). rewrite <- Zlt_Qlt. exact Hv.
  - apply Qinv_lt_0_compat. change 0%Q with (inject_Z 0). rewrite <- Zlt_Qlt. exact Ht.
Qed.

Lemma percentage_nonneg (v t : Z) : (0 <= v)%Z -> (0 <= percentage v t)%Q.
Proof.
  intros Hv. unfold percentage. destruct (0 <? t)%Z eqn:E; [|apply Qle_refl].
  apply Z.ltb_lt in E.
  apply Qmult_le_0_compat; [|discriminate].
  unfold Qdiv. apply Qmult_le_0_compat.
  - change 0%Q with (inject_Z 0). rewrite <- Zle_Qle. exact Hv.
  - apply Qinv_le_0_compat. change 0%Q with (inject_Z 0). rewrite <- Zle_Qle. lia.
Qed.

Lemma total_thrust_nonneg_parts (s : GridSpecifications) :
  counts_nonneg s ->
  (0 <= t_atmospheric (calculate_thrust_by_type s)
   /\ 0 <= t_ion (calculate_thrust_by_type s)
   /\ 0 <= t_hydrogen (calculate_thrust_by_type s))%Z.
Proof.
  unfold counts_nonneg, calculate_thrust_by_type, calculate_thrust. simpl. lia.
Qed.

(** For non-negative counts and non-zero gravity, [suggest_improvements]
    never raises, its efficiency score lies in [[0, 100]], and its balance
    verdict is "No thrusters configured" exactly when the total thrust is 0. *)
Theorem suggest_improvements_defined (s : GridSpecifications) :
  counts_nonneg s -> ~ (gravity s == 0)%Q ->
  exists r, suggest_improvements s = Ok r
    /\ (0 <= efficiency_score r <= 100)%Q
    /\ (thrust_balance r = "No thrusters configured" <-> calculate_total_thrust s = 0%Z).
Proof.
  intros Hc Hg. unfold suggest_improvements.
  destruct (calculate_total_thrust s =? 0)%Z eqn:Et.
  - eexists. split; [reflexivity|]. apply Z.eqb_eq in Et.
    split; [split; discriminate | tauto].
  - apply Z.eqb_neq in Et.
    destruct (efficiency_score_defined s Hg) as [v [Hv Hr]]. rewrite Hv. cbn [bind].
    unfold generate_suggested_changes.
    assert (Et' : (calculate_total_thrust s =? 0)%Z = false) by (apply Z.eqb_neq; exact Et).
    rewrite Et'.
    destruct (guarded_twr_ok s (calculate_total_thrust s) Hg) as [w Hw]. rewrite Hw.
    cbn [bind]. eexists. split; [reflexivity|].
    cbn [efficiency_score thrust_balance]. split; [exact Hr|].
    split; [|intro; contradiction]. intros Hb. exfalso.
    (* some per-type thrust is positive, so its share is positive *)
    assert (Hsum : calculate_total_thrust s
                   = (t_atmospheric (calculate_thrust_by_type s) + t_ion (calculate_thrust_by_type s)
                      + t_hydrogen (calculate_thrust_by_type s))%Z) by reflexivity.
    pose proof (total_thrust_nonneg_parts s Hc) as [Ha [Hi Hh]].
    assert (HT : (0 < calculate_total_thrust s)%Z) by lia.
    assert (Hpos : exists v, In v [t_atmospheric (calculate_thrust_by_type s);
                                  t_ion (calculate_thrust_by_type s);
                                  t_hydrogen (calculate_thrust_by_type s)] /\ (0 < v)%Z).
    { destruct (Z.lt_ge_cases 0 (t_atmospheric (calculate_thrust_by_type s)));
        [eexists; split; [left; reflexivity | assumption]|].
      destruct (Z.lt_ge_cases 0 (t_ion (calculate_thrust_by_type s)));
        [eexists; split; [right; left; reflexivity | assumption]|].
      eexists; split; [right; right; left; reflexivity | lia]. }
    destruct Hpos as [p [Hin Hp]].
    assert (Hz : Qeq_bool (percentage p (calculate_total_thrust s)) 0 = false).
    { apply not_true_iff_false. intro Z0. apply Qeq_bool_iff in Z0.
      pose proof (percentage_pos _ _ Hp HT) as P. rewrite Z0 in P.
      exact (Qlt_irrefl 0 P). }
    assert (Hf : forallb (fun v => Qeq_bool v 0)
                   [percentage (t_atmospheric (calculate_thrust_by_type s)) (calculate_total_thrust s);
                    percentage (t_ion (calculate_thrust_by_type s)) (calculate_total_thrust s);
                    percentage (t_hydrogen (calculate_thrust_by_type s)) (calculate_total_thrust s)]
                 = false).
    { destruct Hin as [<-|[<-|[<-|[]]]]; cbn [forallb]; rewrite Hz;
        rewrite ?andb_false_r; reflexivity. }
    unfold analyze_thrust_balance in Hb. cbn [d_atmospheric d_ion d_hydrogen] in Hb.
    rewrite Hf in Hb.
    repeat (match type of Hb with context [if ?c then _ else _] => destruct c end);
      discriminate.
Qed.

Lemma suggest_improvements_defined_witness :
  counts_nonneg scenario_grid /\ ~ (gravity scenario_grid == 0)%Q
  /\ exists r, suggest_improvements scenario_grid = Ok r
    /\ (0 <= efficiency_score r <= 100)%Q
    /\ (thrust_balance r = "No thrusters configured"
        <-> calculate_total_thrust scenario_grid = 0%Z).
Proof.
  assert (H : counts_nonneg scenario_grid) by (unfold counts_nonneg; simpl; lia).
  assert (G : ~ (gravity scenario_grid == 0)%Q) by discriminate.
  split; [exact H|]. split; [exact G|].
  apply suggest_improvements_defined; assumption.
Defined.

(** The thrust distribution [suggest_improvements] passes to
    [_analyze_thrust_balance] is a set of non-negative shares summing to 100,
    so at most one type can exceed 60% and the order of the heavy checks
    never matters for a real grid. *)
Theorem thrust_distribution_shares (s : GridSpecifications) :
  counts_nonneg s -> (0 < calculate_total_thrust s)%Z ->
  let th := calculate_thrust_by_type s in
  let T := calculate_total_thrust s in
  let pa := percentage (t_atmospheric th) T in
  let pi := percentage (t_ion th) T in
  let ph := percentage (t_hydrogen th) T in
  (pa + pi + ph == 100)%Q
  /\ (0 <= pa)%Q /\ (0 <= pi)%Q /\ (0 <= ph)%Q
  /\ ~ ((60 < pa)%Q /\ (60 < pi)%Q)
  /\ ~ ((60 < pa)%Q /\ (60 < ph)%Q)
  /\ ~ ((60 < pi)%Q /\ (60 < ph)%Q).
Proof.
  intros Hc HT th T pa pi ph.
  destruct (total_thrust_nonneg_parts s Hc) as [Ha [Hi Hh]].
  assert (Na : (0 <= pa)%Q) by (apply percentage_nonneg; exact Ha).
  assert (Ni : (0 <= pi)%Q) by (apply percentage_nonneg; exact Hi).
  assert (Nh : (0 <= ph)%Q) by (apply percentage_nonneg; exact Hh).
  assert (Hsum : (pa + pi + ph == 100)%Q).
  { subst pa pi ph T th. unfold percentage.
    assert (E : (0 <? calculate_total_thrust s)%Z = true) by (apply Z.ltb_lt; exact HT).
    rewrite E.
    assert (HT' : (inject_Z (calculate_total_thrust s)
                   == inject_Z (t_atmospheric (calculate_thrust_by_type s))
                      + inject_Z (t_ion (calculate_thrust_by_type s))
                      + inject_Z (t_hydrogen (calculate_thrust_by_type s)))%Q).
    { rewrite <- !inject_Z_plus. reflexivity. }
    assert (NZ : ~ (inject_Z (calculate_total_thrust s) == 0)%Q)
      by (apply inject_Z_nonzero; lia).
    rewrite HT' in NZ |- *. field. exact NZ. }
  split; [exact Hsum|].
  split; [exact Na|]. split; [exact Ni|]. split; [exact Nh|].
  split; [|split]; intros [H1 H2]; lra.
Qed.

Lemma thrust_distribution_shares_witness :
  counts_nonneg scenario_grid /\ (0 < calculate_total_thrust scenario_grid)%Z
  /\ (percentage 164000 164000 + percentage 0 164000 + percentage 0 164000 == 100)%Q.
Proof.
  assert (H : counts_nonneg scenario_grid) by (unfold counts_nonneg; simpl; lia).
  split; [exact H|]. split; [reflexivity|].
  exact (proj1 (thrust_distribution_shares scenario_grid H eq_refl)).
Defined.

(** ** Efficiency score versus the thrust-to-weight base *)

Lemma efficiency_score_value (s : GridSpecifications) :
  (0 < calculate_total_thrust s)%Z -> (0 < mass s)%Q -> (0 < gravity s)%Q ->
  exists v, calculate_efficiency_score s = Ok v /\ (v == spec_efficiency_score s)%Q.
Proof.
  intros Ht Hm Hg.
  assert (Hm0 : ~ (mass s == 0)%Q)
    by (intro E; rewrite E in Hm; exact (Qlt_irrefl 0 Hm)).
  assert (Hg0 : ~ (gravity s == 0)%Q)
    by (intro E; rewrite E in Hg; exact (Qlt_irrefl 0 Hg)).
  unfold calculate_efficiency_score.
  assert (E1 : (calculate_total_thrust s =? 0)%Z = false) by (apply Z.eqb_neq; lia).
  assert (E2 : Qeq_bool (mass s) 0 = false)
    by (apply not_true_iff_false; intro E; apply Qeq_bool_iff in E; contradiction).
  assert (E3 : (0 <? calculate_total_thrust s)%Z = true) by (apply Z.ltb_lt; exact Ht).
  rewrite E1, E2. cbn [orb].
  rewrite (py_div_nonzero _ _ (Qmult_nonzero _ _ Hm0 Hg0)). cbn [bind].
  rewrite E3, py_div_nonzero by (apply inject_Z_nonzero; lia). cbn [bind].
  eexists. split; [reflexivity|].
  unfold spec_efficiency_score.
  rewrite py_clamp_spec. unfold spec_clamp at 1.
  rewrite py_clamp_spec'. unfold spec_clamp.
  unfold thrust_values. cbn [map]. rewrite py_sum_Q_three.
  reflexivity.
Qed.

Lemma clamp_in_range (x : Q) : (0 <= spec_clamp x 0 100 <= 100)%Q.
Proof.
  unfold spec_clamp. split.
  - apply Q.min_glb; [discriminate | apply Q.le_max_l].
  - apply Q.le_min_l.
Qed.

(** For thrust, mass and gravity all positive, the efficiency score never
    exceeds the thrust-to-weight base [clamp(twr * 20, 0, 100)], and it
    equals that base when the three propulsion types give equal thrust. *)
Theorem efficiency_score_at_most_base (s : GridSpecifications) :
  (0 < calculate_total_thrust s)%Z -> (0 < mass s)%Q -> (0 < gravity s)%Q ->
  let base := spec_clamp (inject_Z (calculate_total_thrust s)
                          / (mass s * gravity s) * 20) 0 100 in
  exists v, calculate_efficiency_score s = Ok v
    /\ (v <= base)%Q
    /\ (t_atmospheric (calculate_thrust_by_type s) = t_ion (calculate_thrust_by_type s) ->
        t_ion (calculate_thrust_by_type s) = t_hydrogen (calculate_thrust_by_type s) ->
        (v == base)%Q).
Proof.
  intros Ht Hm Hg base.
  destruct (efficiency_score_value s Ht Hm Hg) as [v [Hv Heq]].
  exists v. split; [exact Hv|].
  destruct (clamp_in_range (inject_Z (calculate_total_thrust s) / (mass s * gravity s) * 20))
    as [B0 B1].
  fold base in B0, B1.
  unfold spec_efficiency_score in Heq. fold base in Heq.
  set (T := inject_Z (calculate_total_thrust s)) in *.
  assert (TP : (0 < T)%Q) by (subst T; change 0%Q with (inject_Z 0); rewrite <- Zlt_Qlt; exact Ht).
  set (P := ((Qabs (inject_Z (t_atmospheric (calculate_thrust_by_type s)) - T / 3)
              + Qabs (inject_Z (t_ion (calculate_thrust_by_type s)) - T / 3)
              + Qabs (inject_Z (t_hydrogen (calculate_thrust_by_type s)) - T / 3)) / T * 20)%Q)
    in Heq.
  assert (PP : (0 <= P)%Q).
  { subst P. apply Qmult_le_0_compat; [|discriminate].
    unfold Qdiv. apply Qmult_le_0_compat.
    - match goal with
      | |- (0 <= Qabs ?a + Qabs ?b + Qabs ?c)%Q =>
          pose proof (Qabs_nonneg a); pose proof (Qabs_nonneg b);
          pose proof (Qabs_nonneg c); lra
      end.
    - apply Qinv_le_0_compat. apply Qlt_le_weak. exact TP. }
  split.
  - rewrite Heq. unfold spec_clamp.
    apply Qle_trans with (Qmax 0 (base - P)); [apply Q.le_min_r|].
    apply Q.max_lub; [exact B0 | lra].
  - intros E1 E2.
    assert (P0 : (P == 0)%Q).
    { subst P T.
      assert (Hsum : calculate_total_thrust s
                     = (t_atmospheric (calculate_thrust_by_type s)
                        + t_ion (calculate_thrust_by_type s)
                        + t_hydrogen (calculate_thrust_by_type s))%Z) by reflexivity.
      rewrite Hsum, E1, E2.
      set (h := t_hydrogen (calculate_thrust_by_type s)).
      assert (Id : (inject_Z (h + h + h) / 3 == inject_Z h)%Q)
        by (rewrite !inject_Z_plus; field).
      rewrite Id. unfold Qminus. rewrite Qplus_opp_r. reflexivity. }
    rewrite Heq. unfold spec_clamp. rewrite P0.
    assert (M0 : (base - 0 == base)%Q) by lra. rewrite M0.
    rewrite (Q.max_r 0 base) by exact B0.
    apply Q.min_r. exact B1.
Qed.

Lemma efficiency_score_at_most_base_witness :
  (0 < calculate_total_thrust scenario_grid)%Z /\ (0 < mass scenario_grid)%Q
  /\ (0 < gravity scenario_grid)%Q
  /\ exists v, calculate_efficiency_score scenario_grid = Ok v
    /\ (v <= spec_clamp (inject_Z (calculate_total_thrust scenario_grid)
                          / (mass scenario_grid * gravity scenario_grid) * 20) 0 100)%Q.
Proof.
  split; [reflexivity|]. split; [reflexivity|]. split; [reflexivity|].
  destruct (efficiency_score_at_most_base scenario_grid eq_refl eq_refl eq_refl)
    as [v [Hv [Hle _]]].
  exists v. split; assumption.
Defined.

(** ** Session presets *)

Lemma grid_from_to_dict (g : GridSpecifications) :
  GridSpecifications_from_dict (GridSpecifications_to_dict g) = Ok g.
Proof. destruct g as [m gr [a1 a2] [i1 i2] [h1 h2]]. reflexivity. Qed.

Lemma Preset_load_save {J : Type} (json_dumps : pyval -> J) (json_loads : J -> result pyval)
    (Hjson : forall v, json_loads (json_dumps v) = Ok v) (p : Preset) :
  Preset_load json_loads (Preset_save json_dumps p) = Ok p.
Proof.
  unfold Preset_load, Preset_save. rewrite Hjson.
  destruct p as [n sp]. cbn [bind name specifications].
  assert (G1 : forall x, getitem (PyDict [("name", PyStr n); ("specifications", x)]) "name"
                         = Ok (PyStr n)) by reflexivity.
  assert (G2 : forall x, getitem (PyDict [("name", PyStr n); ("specifications", x)])
                                 "specifications" = Ok x) by reflexivity.
  rewrite G1. cbn [bind as_str]. rewrite G2. cbn [bind]. rewrite grid_from_to_dict.
  reflexivity.
Qed.

Lemma dict_get_set_same {V : Type} (k : string) (v : V) (d : list (string * V)) :
  dict_get k (dict_set k v d) = Some v.
Proof.
  induction d as [|[k' v'] d IH]; simpl.
  - rewrite String.eqb_refl. reflexivity.
  - destruct (String.eqb k k') eqn:E; simpl.
    + rewrite String.eqb_refl. reflexivity.
    + rewrite E. exact IH.
Qed.

Lemma dict_get_set_other {V : Type} (k n : string) (v : V) (d : list (string * V)) :
  k <> n -> dict_get n (dict_set k v d) = dict_get n d.
Proof.
  intros Hkn. induction d as [|[k' v'] d IH]; simpl.
  - destruct (String.eqb n k) eqn:E; [|reflexivity].
    apply String.eqb_eq in E. congruence.
  - destruct (String.eqb k k') eqn:E; simpl.
    + apply String.eqb_eq in E. subst k'.
      destruct (String.eqb n k) eqn:E2; [apply String.eqb_eq in E2; congruence|].
      reflexivity.
    + destruct (String.eqb n k'); [reflexivity | exact IH].
Qed.

Lemma dict_set_length {V : Type} (k : string) (v : V) (d : list (string * V)) :
  length (dict_set k v d) = match dict_get k d with Some _ => length d | None => S (length d) end.
Proof.
  induction d as [|[k' v'] d IH]; simpl; [reflexivity|].
  destruct (String.eqb k k'); simpl; [reflexivity|].
  rewrite IH. destruct (dict_get k d); reflexivity.
Qed.

(** Loading a preset by the name it was just saved under gives it back,
    whatever the session store held before (when [json.loads] inverts
    [json.dumps]). *)
Theorem save_then_load_preset {J : Type} (json_dumps : pyval -> J)
    (json_loads : J -> result pyval)
    (Hjson : forall v, json_loads (json_dumps v) = Ok v)
    (store : PresetStore) (p : Preset) :
  load_preset json_loads (save_preset json_dumps store p) (name p) = Ok (Some p).
Proof.
  unfold load_preset, save_preset. rewrite dict_get_set_same.
  rewrite (Preset_load_save json_dumps json_loads Hjson). reflexivity.
Qed.

Lemma save_then_load_preset_witness :
  load_preset Ok (save_preset (fun v => v) None {| name := "lifter"; specifications := scenario_grid |})
    "lifter"
  = Ok (Some {| name := "lifter"; specifications := scenario_grid |}).
Proof.
  exact (save_then_load_preset (fun v => v) Ok (fun v => eq_refl) None
           {| name := "lifter"; specifications := scenario_grid |}).
Defined.

(** Saving a preset changes only its own name's entry: loading any other name
    gives what it gave before, [None] included for a name never saved or a
    session with no store yet. *)
Theorem save_preset_other_names {J : Type} (json_dumps : pyval -> J)
    (json_loads : J -> result pyval) (store : PresetStore) (p : Preset) (n : string) :
  name p <> n ->
  load_preset json_loads (save_preset json_dumps store p) n = load_preset json_loads store n.
Proof.
  intros Hn. unfold load_preset, save_preset.
  rewrite (dict_get_set_other _ _ _ _ Hn).
  destruct store; reflexivity.
Qed.

Lemma save_preset_other_names_witness :
  load_preset Ok (save_preset (fun v => v) None {| name := "lifter"; specifications := scenario_grid |})
    "hauler"
  = load_preset Ok None "hauler".
Proof.
  apply save_preset_other_names. discriminate.
Defined.

(** Saving under a name already in the store overwrites that entry (the
    number of stored presets is unchanged); a new name adds exactly one. *)
Theorem save_preset_count {J : Type} (json_dumps : pyval -> J)
    (presets : list (string * J)) (p : Preset) :
  match save_preset json_dumps (Some presets) p with
  | Some d => length d
  | None => 0%nat
  end
  = match dict_get (name p) presets with
    | Some _ => length presets
    | None => S (length presets)
    end.
Proof. unfold save_preset. apply dict_set_length. Qed.

(** ** Comparison charts *)

Lemma comparison_chart_data_saved {J : Type} (json_dumps : pyval -> J)
    (json_loads : J -> result pyval)
    (Hjson : forall v, json_loads (json_dumps v) = Ok v)
    (entries : list (string * Preset)) :
  comparison_chart_data json_loads
    (map (fun e => (fst e, Preset_save json_dumps (snd e))) entries)
  = Ok (flat_map (fun e => thrust_rows (fst e) (specifications (snd e))) entries).
Proof.
  induction entries as [|[n p] entries IH]; [reflexivity|].
  simpl. rewrite (Preset_load_save json_dumps json_loads Hjson). cbn [bind].
  rewrite IH. reflexivity.
Qed.

(** For presets stored by [save_preset] (JSON texts of [Preset.save]),
    [create_comparison_chart] raises [ValueError] on an empty store, and
    otherwise plots, for each stored name in store order, three bars: the
    atmospheric, ion and hydrogen thrust of that preset's grid. *)
Theorem comparison_chart_rows {J : Type} (json_dumps : pyval -> J)
    (json_loads : J -> result pyval)
    (Hjson : forall v, json_loads (json_dumps v) = Ok v)
    (entries : list (string * Preset)) :
  create_comparison_chart json_loads
    (map (fun e => (fst e, Preset_save json_dumps (snd e))) entries)
  = match entries with
    | [] => Err (ValueError "Value of 'x' is not the name of a column in 'data_frame'")
    | _ => Ok (flat_map (fun e => thrust_rows (fst e) (specifications (snd e))) entries)
    end.
Proof.
  unfold create_comparison_chart.
  rewrite (comparison_chart_data_saved json_dumps json_loads Hjson). cbn [bind].
  destruct entries as [|[n p] entries]; reflexivity.
Qed.

Lemma comparison_chart_rows_witness :
  create_comparison_chart Ok
    (map (fun e => (fst e, Preset_save (fun v => v) (snd e)))
         [("lifter", {| name := "lifter"; specifications := scenario_grid |})])
  = Ok [("lifter", "Atmospheric", 164000%Z); ("lifter", "Ion", 0%Z);
        ("lifter", "Hydrogen", 0%Z)]
  /\ create_comparison_chart Ok
       (map (fun e => (fst e, Preset_save (fun v => v) (snd e))) [])
     = Err (ValueError "Value of 'x' is not the name of a column in 'data_frame'").
Proof.
  split.
  - exact (comparison_chart_rows (fun v => v) Ok (fun v => eq_refl)
             [("lifter", {| name := "lifter"; specifications := scenario_grid |})]).
  - exact (comparison_chart_rows (fun v => v) Ok (fun v => eq_refl) []).
Defined.

(** ** Exported CSV and metrics radar chart *)

Lemma weight_nonzero_gravity (s : GridSpecifications) :
  ~ (mass s * gravity s == 0)%Q -> ~ (gravity s == 0)%Q.
Proof. intros H Hg. apply H. rewrite Hg. ring. Qed.

Lemma total_thrust_nonneg (s : GridSpecifications) :
  counts_nonneg s -> (0 <= calculate_total_thrust s)%Z.
Proof.
  intros Hc. pose proof (total_thrust_nonneg_parts s Hc) as P.
  unfold calculate_total_thrust, py_sum, thrust_values. cbn [fold_left]. lia.
Qed.


(** When the weight is non-zero the performance rows of the export are
    mutually consistent: the total is the sum of the three per-type rows,
    lift * gravity + hover thrust gives back the total, and TWR * hover thrust
    gives back the total.  For positive mass and gravity, the lift row is
    non-negative exactly when the TWR row is at least 1. *)
Theorem export_csv_rows_consistent (s : GridSpecifications) :
  ~ (mass s * gravity s == 0)%Q ->
  exists tot atm ion_t hyd hover lift twr,
    export_grid_to_csv_performance s =
    Ok [("Total Thrust (N)", tot); ("Atmospheric Thrust (N)", atm);
        ("Ion Thrust (N)", ion_t); ("Hydrogen Thrust (N)", hyd);
        ("Required Hover Thrust (N)", hover); ("Lift Capacity (kg)", lift);
        ("Thrust-to-Weight Ratio", twr)]
    /\ (tot == atm + ion_t + hyd)%Q
    /\ (lift * gravity s + hover == tot)%Q
    /\ (twr * hover == tot)%Q
    /\ ((0 < mass s)%Q -> (0 < gravity s)%Q -> ((0 <= lift)%Q <-> (1 <= twr)%Q)).
Proof.
  intros Hw. pose proof (weight_nonzero_gravity s Hw) as Hg.
  unfold export_grid_to_csv_performance, calculate_lift_capacity.
  rewrite (py_div_nonzero _ _ Hg). cbn [bind].
  rewrite (py_div_nonzero _ _ Hw).
  do 7 eexists. split; [reflexivity|].
  split.
  { unfold calculate_total_thrust, py_sum, thrust_values. cbn [fold_left].
    rewrite !inject_Z_plus. simpl (inject_Z 0). ring. }
  split.
  { field. exact Hg. }
  assert (Hm0 : ~ (mass s == 0)%Q) by (intro E; apply Hw; rewrite E; ring).
  split.
  { field. split; assumption. }
  intros Hm Hgp.
  assert (Hh : (0 < mass s * gravity s)%Q) by (apply Qmult_lt_0_compat; assumption).
  set (T := inject_Z (calculate_total_thrust s)).
  set (hv := (mass s * gravity s)%Q) in *.
  assert (L : ((T - hv) / gravity s * gravity s == T - hv)%Q) by (field; exact Hg).
  assert (R : (T / hv * hv == T)%Q) by (unfold hv; field; split; assumption).
  rewrite <- (Qmult_le_r 0 _ _ Hgp), <- (Qmult_le_r 1 _ _ Hh), L, R.
  lra.
Qed.

Lemma export_csv_rows_consistent_witness :
  ~ (mass scenario_grid * gravity scenario_grid == 0)%Q /\
  exists tot atm ion_t hyd hover lift twr,
    export_grid_to_csv_performance scenario_grid =
    Ok [("Total Thrust (N)", tot); ("Atmospheric Thrust (N)", atm);
        ("Ion Thrust (N)", ion_t); ("Hydrogen Thrust (N)", hyd);
        ("Required Hover Thrust (N)", hover); ("Lift Capacity (kg)", lift);
        ("Thrust-to-Weight Ratio", twr)]
    /\ (tot == atm + ion_t + hyd)%Q
    /\ (lift * gravity scenario_grid + hover == tot)%Q
    /\ (twr * hover == tot)%Q
    /\ ((0 < mass scenario_grid)%Q -> (0 < gravity scenario_grid)%Q ->
        ((0 <= lift)%Q <-> (1 <= twr)%Q)).
Proof.
  assert (H : ~ (mass scenario_grid * gravity scenario_grid == 0)%Q)
    by (vm_compute; discriminate).
  split; [exact H | apply (export_csv_rows_consistent scenario_grid H)].
Defined.


(** For a grid with non-negative counts, positive mass and positive gravity,
    the radar point is defined and every coordinate is non-negative; the TWR
    coordinate is [min(twr / 10, 1)], so it lies in [0, 1] and is 1 from a
    ratio of 10 on; the lift coordinate is 0 when the thrust cannot lift
    anything beyond the grid. *)
Theorem metrics_point_ranges (s : GridSpecifications) :
  counts_nonneg s -> (0 < mass s)%Q -> (0 < gravity s)%Q ->
  exists a b c, metrics_point s = Ok (a, b, c)
    /\ (a == inject_Z (calculate_total_thrust s) / 10000000)%Q
    /\ (0 <= a)%Q /\ (0 <= b)%Q /\ (0 <= c <= 1)%Q
    /\ (c == Qmin (inject_Z (calculate_total_thrust s) / (mass s * gravity s) / 10) 1)%Q
    /\ ((inject_Z (calculate_total_thrust s) <= mass s * gravity s)%Q -> (b == 0)%Q).
Proof.
  intros Hc Hm Hg.
  assert (Hw : (0 < mass s * gravity s)%Q) by (apply Qmult_lt_0_compat; assumption).
  assert (Hw' : ~ (mass s * gravity s == 0)%Q) by (intro E; rewrite E in Hw; lra).
  assert (Hg' : ~ (gravity s == 0)%Q) by (intro E; rewrite E in Hg; lra).
  assert (HT : (0 <= inject_Z (calculate_total_thrust s))%Q)
    by (change 0%Q with (inject_Z 0); rewrite <- Zle_Qle; apply total_thrust_nonneg; exact Hc).
  set (T := inject_Z (calculate_total_thrust s)) in *.
  unfold metrics_point, calculate_lift_capacity.
  rewrite (py_div_nonzero _ _ Hg'). cbn [bind].
  rewrite (py_div_nonzero _ _ Hw'). cbn [bind]. fold T.
  set (lift := ((T - mass s * gravity s) / gravity s)%Q).
  set (twr := (T / (mass s * gravity s))%Q).
  assert (Htwr : (0 <= twr)%Q).
  { unfold twr, Qdiv. apply Qmult_le_0_compat; [exact HT|].
    apply Qinv_le_0_compat. lra. }
  eexists; eexists; eexists. split; [reflexivity|].
  split; [reflexivity|].
  split; [unfold Qdiv; apply Qmult_le_0_compat; [exact HT | vm_compute; discriminate]|].
  split.
  { destruct (Qltb 0 lift) eqn:E; [|lra].
    apply Qltb_true in E. unfold Qdiv. apply Qmult_le_0_compat; [lra | vm_compute; discriminate]. }
  split.
  { rewrite py_min_Qmin. split.
    - apply Q.min_glb; [|lra]. unfold Qdiv. apply Qmult_le_0_compat; [exact Htwr | vm_compute; discriminate].
    - apply Q.le_min_r. }
  split; [apply py_min_Qmin|].
  intros Hle. destruct (Qltb 0 lift) eqn:E; [|reflexivity].
  apply Qltb_true in E. exfalso.
  assert (L : (lift * gravity s == T - mass s * gravity s)%Q) by (unfold lift; field; exact Hg').
  pose proof (Qmult_lt_0_compat _ _ E Hg) as P. rewrite L in P. lra.
Qed.

Lemma metrics_point_ranges_witness :
  counts_nonneg scenario_grid /\ (0 < mass scenario_grid)%Q /\ (0 < gravity scenario_grid)%Q /\
  exists a b c, metrics_point scenario_grid = Ok (a, b, c)
    /\ (a == inject_Z (calculate_total_thrust scenario_grid) / 10000000)%Q
    /\ (0 <= a)%Q /\ (0 <= b)%Q /\ (0 <= c <= 1)%Q
    /\ (c == Qmin (inject_Z (calculate_total_thrust scenario_grid)
                   / (mass scenario_grid * gravity scenario_grid) / 10) 1)%Q
    /\ ((inject_Z (calculate_total_thrust scenario_grid)
         <= mass scenario_grid * gravity scenario_grid)%Q -> (b == 0)%Q).
Proof.
  assert (Hc : counts_nonneg scenario_grid) by (unfold counts_nonneg; simpl; lia).
  assert (Hm : (0 < mass scenario_grid)%Q) by reflexivity.
  assert (Hg : (0 < gravity scenario_grid)%Q) by reflexivity.
  split; [exact Hc|]. split; [exact Hm|]. split; [exact Hg|].
  exact (metrics_point_ranges scenario_grid Hc Hm Hg).
Defined.
